(** * Archon: retrieval layer and task service

    A shallow embedding of

    - [python/src/server/services/search/base_search_strategy.py]
    - [python/src/server/services/search/rag_service.py]
    - [python/src/server/services/projects/task_service.py]
    - [python/src/server/services/client_manager.py] (the cursor context)

    The vector store client and the embedding provider are collaborators
    that live outside the repository: they are functions of an abstract
    world state, and every call to them is recorded as an event so that
    statements can count round trips.  The coroutines of the search layer
    await one step after the other, so they are run here as sequential
    computations. *)

From Stdlib Require Import ZArith.
From Stdlib Require Import Floats.PrimFloat.
From stdpp Require Import base option list strings gmap pretty sorting.

#[local] Set Warnings "-register-all".
Local Open Scope string_scope.
Local Open Scope Z_scope.
Local Open Scope list_scope.

(** ** Python values *)

(** The values that travel through the code untouched: point payloads,
    filter values, the entries of the returned records.  A Python [float]
    is an IEEE double. *)
Inductive pyval : Type :=
  | PNone
  | PBool (b : bool)
  | PInt (n : Z)
  | PFloat (x : float)
  | PStr (s : string)
  | PList (l : list pyval)
  | PDict (d : gmap string pyval).

(** A raised exception: its class and its message. *)
Record exn : Type := Exn { exn_class : string; exn_msg : string }.

(** [bool(d)] for [d : dict | None]: [None] and the empty dict are falsy. *)
Definition truthy (d : option (gmap string pyval)) : bool :=
  match d with
  | None => false
  | Some m => negb (Nat.eqb (size m) 0)
  end.

(** [{**base, **extra}]: the entries of [extra] are written last. *)
Definition dict_update (base extra : gmap string pyval) : gmap string pyval :=
  extra ∪ base.

(** ** The part of [qdrant_client.models] the code touches

    The model classes are pydantic models: they are constructed from
    keyword arguments only, and a field that the call does not name keeps
    its default, [None]. *)
Module models.

Record MatchValue : Type := mkMatchValue { value : pyval }.

Record Range : Type := mkRange { lt : option float; gt : option float;
                                 gte : option float; lte : option float }.

Record FieldCondition : Type := mkFieldCondition {
  key : string;
  match_ : option MatchValue;
  range : option Range
}.

Record Filter : Type := mkFilter {
  should : option (list FieldCondition);
  must : option (list FieldCondition);
  must_not : option (list FieldCondition)
}.

(** What a model class raises when it is called with a positional
    argument: its [__init__] takes [self] and keywords. *)
Definition positional_argument_error : exn :=
  Exn "TypeError"
    "BaseModel.__init__() takes 1 positional argument but 2 were given".

(** [MatchValue(v)], the value passed by position. *)
Definition MatchValue_positional (v : pyval) : exn + MatchValue :=
  inl positional_argument_error.

(** [FieldCondition(key=k, match=m)] *)
Definition equality (k : string) (m : MatchValue) : FieldCondition :=
  mkFieldCondition k (Some m) None.

(** [Filter(must=conditions)] *)
Definition conjunction (conditions : list FieldCondition) : Filter :=
  mkFilter None (Some conditions) None.

(** A point identifier is an integer or a string (a UUID). *)
Inductive PointId : Type :=
  | IdInt (n : Z)
  | IdStr (s : string).

Record ScoredPoint : Type := mkScoredPoint {
  id : PointId;
  score : float;
  payload : option (gmap string pyval)
}.

Definition id_value (i : PointId) : pyval :=
  match i with
  | IdInt n => PInt n
  | IdStr s => PStr s
  end.

End models.

(** The keyword arguments of [QdrantClient.search]. *)
Record SearchArgs : Type := mkSearchArgs {
  collection_name : string;
  query_vector : list float;
  limit : Z;
  query_filter : option models.Filter
}.

(** ** Observable events *)

Inductive Event : Type :=
  | EvSpan (name : string) (query_length : nat) (match_count : Z)
  | EvSetAttribute (name : string) (count : nat)
  | EvDebug (msg collection : string) (match_count : Z)
            (filter : option (gmap string pyval))
  | EvEmbed (text : string)
  | EvSearch (args : SearchArgs).

(** The store round trips among a list of events. *)
Definition store_calls (evs : list Event) : list SearchArgs :=
  omap (λ ev, match ev with EvSearch a => Some a | _ => None end) evs.

(** ** Computations: world passing, exceptions, emitted events *)

Section Effects.

Context {World : Type}.

Record Outcome (A : Type) : Type := mkOutcome {
  result : exn + A;
  final : World;
  events : list Event
}.
Global Arguments mkOutcome {A} _ _ _.
Global Arguments result {A} _.
Global Arguments final {A} _.
Global Arguments events {A} _.

Definition M (A : Type) : Type := World → Outcome A.

Definition ret {A} (x : A) : M A :=
  λ w, mkOutcome (inr x) w [].

Definition raise {A} (e : exn) : M A :=
  λ w, mkOutcome (inl e) w [].

(** Sequencing: an exception in the first part skips the rest. *)
Definition bind {A B} (m : M A) (k : A → M B) : M B :=
  λ w,
    let o := m w in
    match result o with
    | inl e => mkOutcome (inl e) (final o) (events o)
    | inr a =>
        let o' := k a (final o) in
        mkOutcome (result o') (final o') (events o ++ events o')
    end.

Definition emit (ev : Event) : M unit :=
  λ w, mkOutcome (inr tt) w [ev].

(** A step that touches neither the world nor the trace: it gives its
    value or raises. *)
Definition lift {A} (r : exn + A) : M A :=
  λ w, mkOutcome r w [].

(** A call to a collaborator: one event, then whatever it answers. *)
Definition call {A} (ev : Event) (f : World → (exn + A) * World) : M A :=
  λ w, let r := f w in mkOutcome (r.1) (r.2) [ev].

Global Instance M_ret : MRet M := @ret.
Global Instance M_bind : MBind M := λ A B k m, bind m k.

End Effects.

Global Arguments Outcome : clear implicits.
Global Arguments M : clear implicits.

(** ** [base_search_strategy.py] *)

Section Search.

Context {World : Type}.

(** The store client, as far as the strategy uses it: its [search]
    method, which answers with the ranked points or raises. *)
Record QdrantClient : Type := mkQdrantClient {
  search : SearchArgs → World → (exn + list models.ScoredPoint) * World
}.

(** The call [self.client.search(...)]. *)
Definition client_search (c : QdrantClient) (args : SearchArgs)
  : M World (list models.ScoredPoint) :=
  call (EvSearch args) (search c args).

Record BaseSearchStrategy : Type := mkBaseSearchStrategy {
  client : QdrantClient
}.

Definition COLLECTION_MAP : gmap string string :=
  <["match_archon_code_examples" := "code"]>
    (<["match_archon_crawled_pages" := "docs"]> ∅).

(** [self.COLLECTION_MAP.get(table_rpc, table_rpc)] *)
Definition resolve_collection (table_rpc : string) : string :=
  default table_rpc (COLLECTION_MAP !! table_rpc).

(** The list comprehension of line 47 over the items of the dict: each
    item first evaluates [models.MatchValue(v)], and the first exception
    ends the comprehension. *)
Fixpoint conditions_of (items : list (string * pyval))
  : exn + list models.FieldCondition :=
  match items with
  | [] => inr []
  | (k, v) :: rest =>
      match models.MatchValue_positional v with
      | inl e => inl e
      | inr m =>
          match conditions_of rest with
          | inl e => inl e
          | inr conditions => inr (models.equality k m :: conditions)
          end
      end
  end.

(** [[models.FieldCondition(key=k, match=models.MatchValue(v))
      for k, v in filter_metadata.items()]] *)
Definition must_conditions (filter_metadata : gmap string pyval)
  : exn + list models.FieldCondition :=
  conditions_of (map_to_list filter_metadata).

(** Lines 45-48: no filter object for [None] or an empty dict; otherwise
    the conditions are built, and with them the filter. *)
Definition build_query_filter (filter_metadata : option (gmap string pyval))
  : exn + option models.Filter :=
  match filter_metadata with
  | Some m =>
      if truthy (Some m)
      then match must_conditions m with
           | inl e => inl e
           | inr must => inr (Some (models.conjunction must))
           end
      else inr None
  | None => inr None
  end.

(** [{"id": r.id, "score": r.score, **(r.payload or {})}] *)
Definition flatten_hit (r : models.ScoredPoint) : gmap string pyval :=
  dict_update
    (<["score" := PFloat (models.score r)]>
       (<["id" := models.id_value (models.id r)]> ∅))
    (default ∅ (models.payload r)).

Definition vector_search (self : BaseSearchStrategy)
    (query_embedding : list float) (match_count : Z)
    (filter_metadata : option (gmap string pyval)) (table_rpc : string)
  : M World (list (gmap string pyval)) :=
  let collection := resolve_collection table_rpc in
  _ ← emit (EvDebug "Vector search" collection match_count filter_metadata);
  query_filter ← lift (build_query_filter filter_metadata);
  results ← client_search (client self)
              (mkSearchArgs collection query_embedding match_count query_filter);
  mret (flatten_hit <$> results).

(** ** [rag_service.py] *)

(** [create_embedding] from [..embeddings.embedding_service], which is
    not among the sources: the embedding provider, taken as given. *)
Variable create_embedding : string → World → (exn + list float) * World.

Definition embed (text : string) : M World (list float) :=
  call (EvEmbed text) (create_embedding text).

(** Modelled from the spec: [safe_span] of [...config.logfire_config] is
    not among the sources.  The spec has the span attach trace metadata
    "for observability, not for control flow": entering records the span
    and its attributes, the body runs as it is, and an exception of the
    body leaves the block unchanged. *)
Definition safe_span {A} (name : string) (query_length : nat)
    (match_count : Z) (body : M World A) : M World A :=
  _ ← emit (EvSpan name query_length match_count);
  body.

(** [span.set_attribute("results_found", len(results))] *)
Definition set_results_found (n : nat) : M World unit :=
  emit (EvSetAttribute "results_found" n).

Record RAGService : Type := mkRAGService {
  base_strategy : BaseSearchStrategy
}.

Definition search_documents (self : RAGService) (query : string)
    (match_count : Z) (filter_metadata : option (gmap string pyval))
  : M World (list (gmap string pyval)) :=
  safe_span "rag_search_documents" (String.length query) match_count (
    query_embedding ← embed query;
    results ← vector_search (base_strategy self) query_embedding
                match_count filter_metadata "match_archon_crawled_pages";
    _ ← set_results_found (length results);
    mret results).

Definition search_code_examples (self : RAGService) (query : string)
    (match_count : Z) (filter_metadata : option (gmap string pyval))
  : M World (list (gmap string pyval)) :=
  safe_span "rag_search_code" (String.length query) match_count (
    query_embedding ← embed query;
    results ← vector_search (base_strategy self) query_embedding
                match_count filter_metadata "match_archon_code_examples";
    _ ← set_results_found (length results);
    mret results).

(** The two operations of the service are one protocol, run under two
    span names and two aliases. *)
Definition search_protocol (span_name table_rpc : string) (self : RAGService)
    (query : string) (match_count : Z)
    (filter_metadata : option (gmap string pyval))
  : M World (list (gmap string pyval)) :=
  safe_span span_name (String.length query) match_count (
    query_embedding ← embed query;
    results ← vector_search (base_strategy self) query_embedding
                match_count filter_metadata table_rpc;
    _ ← set_results_found (length results);
    mret results).

(** ** What the store is trusted to do

    The contract of [search] in the collaborator's interface: it returns
    no more points than [limit], and it only reads. *)

Definition honours_limit (c : QdrantClient) : Prop :=
  ∀ args w hits,
    (search c args w).1 = inr hits →
    0 < limit args →
    Z.of_nat (length hits) ≤ limit args.

Definition search_reads_only (c : QdrantClient) : Prop :=
  ∀ args w, (search c args w).2 = w.

Definition embedder_reads_only : Prop :=
  ∀ text w, (create_embedding text w).2 = w.

End Search.

Global Arguments QdrantClient : clear implicits.
Global Arguments BaseSearchStrategy : clear implicits.
Global Arguments RAGService : clear implicits.

(** ** What [sqlite3] does with an integer parameter

    A Python [int] bound to a [?] has to fit SQLite's INTEGER, 64 bits
    with sign; for one that does not, [execute] raises before the statement
    runs. *)
Module sqlite3.

Definition fits_integer (n : Z) : bool :=
  (- 2 ^ 63 <=? n) && (n <? 2 ^ 63).

Definition overflow_error : exn :=
  Exn "OverflowError" "Python int too large to convert to SQLite INTEGER".

End sqlite3.

(** ** [task_service.py] over the cursor context of [client_manager.py] *)

Module TaskService.

(** A row of the table [archon_tasks]. *)
Record TaskRow : Type := mkTaskRow {
  id : Z;
  project_id : Z;
  title : string;
  description : string;
  status : string;
  assignee : string;
  created_at : string;
  updated_at : string
}.

(** The SQLite file behind [get_db], with two counters: the connections
    opened so far and the times the clock was read. *)
Record Database : Type := mkDatabase {
  archon_tasks : list TaskRow;
  connections_opened : nat;
  clock_reads : nat
}.

Definition VALID_STATUSES : list string := ["todo"; "doing"; "review"; "done"].

(** [status not in self.VALID_STATUSES] *)
Definition not_in_valid_statuses (status : string) : bool :=
  negb (bool_decide (status ∈ VALID_STATUSES)).

(** [with self.db_context() as cur:] entered: [__enter__] calls [get_db],
    which connects. *)
Definition db_context_enter (db : Database) : Database :=
  mkDatabase (archon_tasks db) (S (connections_opened db)) (clock_reads db).

(** [__exit__] without an exception: the rows written in the block are
    committed and the connection is closed. *)
Definition db_context_exit (rows : list TaskRow) (db : Database) : Database :=
  mkDatabase rows (connections_opened db) (clock_reads db).

(** [__exit__] with an exception: what the block wrote is rolled back, the
    connection is closed, and the exception goes on to the caller. *)
Definition db_context_abort (db : Database) : Database :=
  mkDatabase (archon_tasks db) (connections_opened db) (clock_reads db).

Section Operations.

(** [datetime.now().isoformat()] at the n-th reading of the clock. *)
Variable isoformat_now : nat → string.

(** The row id SQLite gives to a row inserted without one; the schema
    of the table is not among the sources. *)
Variable next_rowid : list TaskRow → Z.

Definition now (db : Database) : string * Database :=
  (isoformat_now (clock_reads db),
   mkDatabase (archon_tasks db) (connections_opened db) (S (clock_reads db))).

Definition error (msg : string) : gmap string pyval :=
  {[ "error" := PStr msg ]}.

Definition create_task (project_id : Z) (title description status assignee : string)
    (db : Database) : (exn + bool * gmap string pyval) * Database :=
  if not_in_valid_statuses status
  then (inr (false, error ("Invalid status '" +:+ status +:+ "'")), db)
  else
    let db1 := db_context_enter db in
    let '(created, db2) := now db1 in
    let '(updated, db3) := now db2 in
    if sqlite3.fits_integer project_id
    then
      let task_id := next_rowid (archon_tasks db3) in
      let row := mkTaskRow task_id project_id title description status
                   assignee created updated in
      let db4 := db_context_exit (archon_tasks db3 ++ [row]) db3 in
      (inr (true,
            {[ "task" := PDict (<["status" := PStr status]>
                                 (<["title" := PStr title]>
                                    (<["id" := PInt task_id]> ∅))) ]}),
       db4)
    else (inl sqlite3.overflow_error, db_context_abort db3).

(** [UPDATE archon_tasks SET status = ?, updated_at = ? WHERE id = ?]
    on one row. *)
Definition set_status (task_id : Z) (new_status stamp : string) (row : TaskRow)
  : TaskRow :=
  if bool_decide (id row = task_id)
  then mkTaskRow (id row) (project_id row) (title row) (description row)
         new_status (assignee row) (created_at row) stamp
  else row.

(** [cur.rowcount] after the update: the rows the [WHERE] matched. *)
Definition rowcount (task_id : Z) (rows : list TaskRow) : nat :=
  length (List.filter (λ row, bool_decide (id row = task_id)) rows).

Definition update_status (task_id : Z) (status : string) (db : Database)
  : (exn + bool * gmap string pyval) * Database :=
  if not_in_valid_statuses status
  then (inr (false, error ("Invalid status '" +:+ status +:+ "'")), db)
  else
    let db1 := db_context_enter db in
    let '(stamp, db2) := now db1 in
    if sqlite3.fits_integer task_id
    then
      let rows := set_status task_id status stamp <$> archon_tasks db2 in
      let db3 := db_context_exit rows db2 in
      if Nat.eqb (rowcount task_id (archon_tasks db2)) 0
      then (inr (false,
                 error ("Task with ID " +:+ pretty task_id +:+ " not found")),
            db3)
      else (inr (true,
                 {[ "task" := PDict (<["status" := PStr status]>
                                      (<["id" := PInt task_id]> ∅)) ]}),
            db3)
    else (inl sqlite3.overflow_error, db_context_abort db2).

End Operations.

(** Sample data: three tasks, a clock, and row ids that count upwards. *)
Definition sample_rows : list TaskRow :=
  [ mkTaskRow 1 10 "Write docs" "" "todo" "User" "2025-01-01T09:00:00" "2025-01-01T09:00:00";
    mkTaskRow 2 10 "Fix search" "filters" "doing" "User" "2025-01-02T09:00:00" "2025-01-03T10:30:00";
    mkTaskRow 4 11 "Ship" "" "review" "Archon" "2025-01-04T09:00:00" "2025-01-04T09:00:00" ].

Definition sample_db : Database := mkDatabase sample_rows 0 0.

Definition sample_clock (n : nat) : string := "2025-02-01T12:00:0" +:+ pretty n.

Definition sample_rowid (rows : list TaskRow) : Z :=
  1 + foldr Z.max 0 (id <$> rows).

End TaskService.

(** ** A store and an embedder to run the code against

    An in-memory stand-in for the two collaborators.  A collection is the
    list of its points, already in ranking order; a search keeps the points
    that meet every condition and cuts the list at [limit].  An unknown
    collection raises; the embedder raises while it is down. *)
Module Mock.

Record world : Type := mkWorld {
  collections : gmap string (list models.ScoredPoint);
  embedder_up : bool
}.

(** Equality of a condition's value with a payload value, on the scalars
    a match condition can carry. *)
Definition scalar_eqb (a b : pyval) : bool :=
  match a, b with
  | PBool x, PBool y => Bool.eqb x y
  | PInt x, PInt y => Z.eqb x y
  | PStr x, PStr y => String.eqb x y
  | _, _ => false
  end.

(** Only equality conditions are met; the stand-in knows no ranges. *)
Definition meets (p : models.ScoredPoint) (c : models.FieldCondition) : bool :=
  match models.match_ c, models.range c with
  | Some mv, None =>
      match default ∅ (models.payload p) !! models.key c with
      | Some v => scalar_eqb (models.value mv) v
      | None => false
      end
  | _, _ => false
  end.

Definition passes (flt : option models.Filter) (p : models.ScoredPoint) : bool :=
  match flt with
  | Some f =>
      forallb (meets p) (default [] (models.must f))
      && negb (existsb (meets p) (default [] (models.must_not f)))
      && match models.should f with
         | None | Some [] => true
         | Some conditions => existsb (meets p) conditions
         end
  | None => true
  end.

Definition search (args : SearchArgs) (w : world)
  : (exn + list models.ScoredPoint) * world :=
  match collections w !! collection_name args with
  | Some points =>
      (inr (take (Z.to_nat (limit args))
              (List.filter (passes (query_filter args)) points)), w)
  | None =>
      (inl (Exn "ValueError"
              ("Collection " +:+ collection_name args +:+ " not found")), w)
  end.

Definition qdrant : QdrantClient world := mkQdrantClient search.
Definition strategy : BaseSearchStrategy world := mkBaseSearchStrategy qdrant.
Definition service : RAGService world := mkRAGService strategy.

Definition fixed_vector : list float := [0.5%float; 1%float; (-0.25)%float].

Definition create_embedding (text : string) (w : world)
  : (exn + list float) * world :=
  if embedder_up w
  then (inr fixed_vector, w)
  else (inl (Exn "EmbeddingError" "provider unavailable"), w).

Definition go : gmap string pyval := {[ "language" := PStr "go" ]}.
Definition rust : gmap string pyval := {[ "language" := PStr "rust" ]}.
Definition shadow : gmap string pyval :=
  <["score" := PStr "high"]> (<["id" := PStr "shadow"]> go).

Definition code_points : list models.ScoredPoint :=
  [ models.mkScoredPoint (models.IdInt 7) 0.875%float (Some go);
    models.mkScoredPoint (models.IdInt 3) 0.75%float (Some rust);
    models.mkScoredPoint (models.IdStr "c2") 0.5%float (Some shadow);
    models.mkScoredPoint (models.IdInt 9) 0.25%float None ].

Definition doc_points : list models.ScoredPoint :=
  [ models.mkScoredPoint (models.IdInt 1) 0.75%float (Some (∅ : gmap string pyval)) ].

Definition w0 : world :=
  mkWorld (<["code" := code_points]> (<["docs" := doc_points]> ∅)) true.

Definition w_down : world := mkWorld (collections w0) false.

(** The same embedder over a store that holds no collection. *)
Definition w_bare : world := mkWorld ∅ true.

End Mock.

(** ** What a run leaves in the trace *)

(** The texts sent to the embedder, in order. *)
Definition embed_calls (evs : list Event) : list string :=
  omap (λ ev, match ev with EvEmbed t => Some t | _ => None end) evs.

(** The attributes set on the span after it was entered. *)
Definition span_attributes (evs : list Event) : list (string * nat) :=
  omap (λ ev, match ev with EvSetAttribute n c => Some (n, c) | _ => None end) evs.

(** ** [list_tasks] of [task_service.py] *)

Module TaskListing.

(** [dict(r)] for a row of [archon_tasks], over the columns the code
    names. *)
Definition row_dict (row : TaskService.TaskRow) : gmap string pyval :=
  <["updated_at" := PStr (TaskService.updated_at row)]>
    (<["created_at" := PStr (TaskService.created_at row)]>
       (<["assignee" := PStr (TaskService.assignee row)]>
          (<["status" := PStr (TaskService.status row)]>
             (<["description" := PStr (TaskService.description row)]>
                (<["title" := PStr (TaskService.title row)]>
                   (<["project_id" := PInt (TaskService.project_id row)]>
                      (<["id" := PInt (TaskService.id row)]> ∅))))))).

(** [SELECT * FROM archon_tasks], with [WHERE project_id = ?] when a
    project is given. *)
Definition select_tasks (project_id : option Z) (rows : list TaskService.TaskRow)
  : list TaskService.TaskRow :=
  match project_id with
  | Some p => List.filter (λ row, bool_decide (TaskService.project_id row = p)) rows
  | None => rows
  end.

(** The parameters of the query: the project id, when one is given. *)
Definition params_fit (project_id : option Z) : bool :=
  match project_id with
  | Some p => sqlite3.fits_integer p
  | None => true
  end.

Definition list_tasks (project_id : option Z) (db : TaskService.Database)
  : (exn + bool * gmap string pyval) * TaskService.Database :=
  let db1 := TaskService.db_context_enter db in
  if params_fit project_id
  then
    let rows := select_tasks project_id (TaskService.archon_tasks db1) in
    let db2 := TaskService.db_context_exit (TaskService.archon_tasks db1) db1 in
    (inr (true,
          <["total_count" := PInt (Z.of_nat (length rows))]>
            (<["tasks" := PList (PDict <$> (row_dict <$> rows))]> ∅)),
     db2)
  else (inl sqlite3.overflow_error, TaskService.db_context_abort db1).

End TaskListing.

(** ** Python strings

    A character of a string stands for one code point below 256, so that
    [String.length] is [len]. *)
Module Str.

(** [c.isspace()] on those code points. *)
Definition isspace (c : Ascii.ascii) : bool :=
  let n := Ascii.nat_of_ascii c in
  (Nat.leb 9 n && Nat.leb n 13) || (Nat.leb 28 n && Nat.leb n 32)
  || Nat.eqb n 133 || Nat.eqb n 160.

Fixpoint lstrip (s : string) : string :=
  match s with
  | EmptyString => EmptyString
  | String c rest => if isspace c then lstrip rest else s
  end.

Fixpoint rstrip (s : string) : string :=
  match s with
  | EmptyString => EmptyString
  | String c rest =>
      match rstrip rest with
      | EmptyString => if isspace c then EmptyString else String c EmptyString
      | kept => String c kept
      end
  end.

(** [s.strip()] *)
Definition strip (s : string) : string := rstrip (lstrip s).

(** [s.isspace()] or [s == ""]: nothing but whitespace. *)
Fixpoint all_space (s : string) : bool :=
  match s with
  | EmptyString => true
  | String c rest => isspace c && all_space rest
  end.

(** [s[0]] and [s[-1]], where there is one. *)
Definition first_char (s : string) : option Ascii.ascii :=
  match s with
  | EmptyString => None
  | String c _ => Some c
  end.

Fixpoint last_char (s : string) : option Ascii.ascii :=
  match s with
  | EmptyString => None
  | String c rest =>
      match last_char rest with
      | None => Some c
      | Some d => Some d
      end
  end.

End Str.

(** ** [project_service.py]

    The table [archon_projects] is the list of its rows; a statement fails
    only on a parameter that SQLite cannot hold, and the log lines are left
    out. *)

Module ProjectService.

(** The dataclass [Project]. *)
Record Project : Type := mkProject {
  title : string;
  github_repo : option string;
  created_at : string;
  updated_at : string;
  id : option Z
}.

(** A row of the table [archon_projects]. *)
Record Row : Type := mkRow {
  col_id : Z;
  col_title : string;
  col_github_repo : option string;
  col_created_at : string;
  col_updated_at : string
}.

Record Database : Type := mkDatabase {
  archon_projects : list Row;
  connections_opened : nat
}.

Definition db_context_enter (db : Database) : Database :=
  mkDatabase (archon_projects db) (S (connections_opened db)).

Definition db_context_exit (rows : list Row) (db : Database) : Database :=
  mkDatabase rows (connections_opened db).

(** [__exit__] with an exception: rollback, close, and the exception goes
    on to the caller. *)
Definition db_context_abort (db : Database) : Database :=
  mkDatabase (archon_projects db) (connections_opened db).

Definition optional_str (s : option string) : pyval :=
  match s with
  | Some x => PStr x
  | None => PNone
  end.

Definition optional_int (n : option Z) : pyval :=
  match n with
  | Some x => PInt x
  | None => PNone
  end.

(** [asdict(project)] *)
Definition asdict (p : Project) : gmap string pyval :=
  <["id" := optional_int (id p)]>
    (<["updated_at" := PStr (updated_at p)]>
       (<["created_at" := PStr (created_at p)]>
          (<["github_repo" := optional_str (github_repo p)]>
             (<["title" := PStr (title p)]> ∅)))).

(** [dict(row)] for the five columns the queries select. *)
Definition row_dict (row : Row) : gmap string pyval :=
  <["updated_at" := PStr (col_updated_at row)]>
    (<["created_at" := PStr (col_created_at row)]>
       (<["github_repo" := optional_str (col_github_repo row)]>
          (<["title" := PStr (col_title row)]>
             (<["id" := PInt (col_id row)]> ∅)))).

Definition error (msg : string) : gmap string pyval :=
  {[ "error" := PStr msg ]}.

(** [ORDER BY created_at DESC]: text compared character by character.  The
    order SQLite gives to rows with equal keys is not fixed; the sort below
    is one such order. *)
Definition newer_first (r1 r2 : Row) : Prop :=
  String.leb (col_created_at r2) (col_created_at r1) = true.

Global Instance newer_first_dec (r1 r2 : Row) : Decision (newer_first r1 r2).
Proof. unfold newer_first. apply _. Defined.

Definition order_by_created_at_desc (rows : list Row) : list Row :=
  merge_sort newer_first rows.

(** [WHERE id = ?] *)
Definition has_id (project_id : Z) (row : Row) : bool :=
  bool_decide (col_id row = project_id).

Section Operations.

(** The defaults of [created_at] and [updated_at] in the dataclass:
    [datetime.now().isoformat()], evaluated twice when the class body runs,
    that is when the module is imported. *)
Variable default_created_at default_updated_at : string.

(** The row id SQLite gives to a row inserted without one; the schema
    of the table is not among the sources. *)
Variable next_rowid : list Row → Z.

Definition create_project (title_arg : string) (github_repo_arg : option string)
    (db : Database) : (bool * gmap string pyval) * Database :=
  if String.eqb title_arg ""
  then ((false, error "Project title is required"), db)
  else
    let project := mkProject (Str.strip title_arg) github_repo_arg
                     default_created_at default_updated_at None in
    let db1 := db_context_enter db in
    let rowid := next_rowid (archon_projects db1) in
    let row := mkRow rowid (title project) (github_repo project)
                 (created_at project) (updated_at project) in
    let db2 := db_context_exit (archon_projects db1 ++ [row]) db1 in
    let project' := mkProject (title project) (github_repo project)
                      (created_at project) (updated_at project) (Some rowid) in
    ((true, {[ "project" := PDict (asdict project') ]}), db2).

Definition list_projects (db : Database)
  : (bool * gmap string pyval) * Database :=
  let db1 := db_context_enter db in
  let rows := order_by_created_at_desc (archon_projects db1) in
  let db2 := db_context_exit (archon_projects db1) db1 in
  ((true,
    <["total_count" := PInt (Z.of_nat (length rows))]>
      (<["projects" := PList (PDict <$> (row_dict <$> rows))]> ∅)),
   db2).

(** [cur.fetchone()]: the first row the query yields, if any. *)
Definition fetchone (project_id : Z) (rows : list Row) : option Row :=
  head (List.filter (has_id project_id) rows).

Definition get_project (project_id : Z) (db : Database)
  : (exn + bool * gmap string pyval) * Database :=
  let db1 := db_context_enter db in
  if sqlite3.fits_integer project_id
  then
    let row := fetchone project_id (archon_projects db1) in
    let db2 := db_context_exit (archon_projects db1) db1 in
    match row with
    | None =>
        (inr (false,
              error ("Project with ID " +:+ pretty project_id +:+ " not found")),
         db2)
    | Some r => (inr (true, {[ "project" := PDict (row_dict r) ]}), db2)
    end
  else (inl sqlite3.overflow_error, db_context_abort db1).

Definition delete_project (project_id : Z) (db : Database)
  : (exn + bool * gmap string pyval) * Database :=
  let db1 := db_context_enter db in
  if sqlite3.fits_integer project_id
  then
    let deleted := length (List.filter (has_id project_id) (archon_projects db1)) in
    let rows := List.filter (λ row, negb (has_id project_id row))
                  (archon_projects db1) in
    let db2 := db_context_exit rows db1 in
    if negb (Nat.eqb deleted 0)
    then (inr (true, {[ "deleted" := PInt project_id ]}), db2)
    else (inr (false,
               error ("Project with ID " +:+ pretty project_id +:+ " not found")),
          db2)
  else (inl sqlite3.overflow_error, db_context_abort db1).

End Operations.

(** Sample data. *)
Definition sample_rows : list Row :=
  [ mkRow 1 "Archon" (Some "DrDeception/Archon") "2025-01-01T09:00:00" "2025-01-01T09:00:00";
    mkRow 2 "Docs" None "2025-03-01T09:00:00" "2025-03-01T09:00:00";
    mkRow 5 "Search" None "2025-02-01T09:00:00" "2025-02-01T09:00:00" ].

Definition sample_db : Database := mkDatabase sample_rows 0.

Definition sample_rowid (rows : list Row) : Z :=
  1 + foldr Z.max 0 (col_id <$> rows).

End ProjectService.

(** * Properties of the retrieval layer *)

Section SearchFacts.

Context {World : Type}.
Implicit Types (self : BaseSearchStrategy World) (svc : RAGService World).
Implicit Types (w : World) (m : gmap string pyval).
Implicit Types (filter_metadata : option (gmap string pyval)).

(** The filter step: nothing is built for a falsy filter; for a dict with
    entries the first [models.MatchValue(v)] raises. *)
Lemma truthy_false filter_metadata :
  truthy filter_metadata = false ↔
    filter_metadata = None ∨ filter_metadata = Some ∅.
Proof.
  destruct filter_metadata as [m|]; simpl.
  - rewrite negb_false_iff, Nat.eqb_eq, map_size_empty_iff. split.
    + intros ->. by right.
    + by intros [|[= ->]].
  - split; [by left|done].
Qed.

Lemma build_query_filter_falsy filter_metadata :
  truthy filter_metadata = false → build_query_filter filter_metadata = inr None.
Proof.
  destruct filter_metadata as [m|]; [|done].
  unfold build_query_filter. by intros ->.
Qed.

Lemma build_query_filter_truthy filter_metadata :
  truthy filter_metadata = true →
  build_query_filter filter_metadata = inl models.positional_argument_error.
Proof.
  destruct filter_metadata as [m|]; [|discriminate].
  unfold build_query_filter. intros Ht. rewrite Ht.
  unfold must_conditions. simpl in Ht.
  destruct (map_to_list m) as [|[k v] items] eqn:Hitems; [|reflexivity].
  apply map_to_list_empty_iff in Hitems. subst m. discriminate Ht.
Qed.

(** What one run of [vector_search] amounts to: the debug line, then
    either the exception of the filter step, or one round trip and the
    store's answer with every point flattened. *)
Lemma vector_search_run self qe k filter_metadata table_rpc w :
  vector_search self qe k filter_metadata table_rpc w =
    match build_query_filter filter_metadata with
    | inl e =>
        mkOutcome (inl e) w
          [EvDebug "Vector search" (resolve_collection table_rpc) k filter_metadata]
    | inr query_filter =>
        let args := mkSearchArgs (resolve_collection table_rpc) qe k query_filter in
        let answer := search (client self) args w in
        mkOutcome
          (match answer.1 with
           | inl e => inl e
           | inr hits => inr (flatten_hit <$> hits)
           end)
          answer.2
          [EvDebug "Vector search" (resolve_collection table_rpc) k filter_metadata;
           EvSearch args]
    end.
Proof.
  unfold vector_search, mbind, M_bind, bind, emit, lift, client_search, call.
  cbn [result final events].
  destruct (build_query_filter filter_metadata) as [e|query_filter]; [reflexivity|].
  cbn [result final events app].
  destruct (search (client self) _ w) as [[e|hits] w']; reflexivity.
Qed.

Lemma vector_search_falsy self qe k filter_metadata table_rpc w :
  truthy filter_metadata = false →
  let args := mkSearchArgs (resolve_collection table_rpc) qe k None in
  let answer := search (client self) args w in
  vector_search self qe k filter_metadata table_rpc w =
    mkOutcome
      (match answer.1 with
       | inl e => inl e
       | inr hits => inr (flatten_hit <$> hits)
       end)
      answer.2
      [EvDebug "Vector search" (resolve_collection table_rpc) k filter_metadata;
       EvSearch args].
Proof.
  intros Hf. rewrite vector_search_run.
  by rewrite (build_query_filter_falsy _ Hf).
Qed.

Lemma vector_search_truthy self qe k filter_metadata table_rpc w :
  truthy filter_metadata = true →
  vector_search self qe k filter_metadata table_rpc w =
    mkOutcome (inl models.positional_argument_error) w
      [EvDebug "Vector search" (resolve_collection table_rpc) k filter_metadata].
Proof.
  intros Hf. rewrite vector_search_run.
  by rewrite (build_query_filter_truthy _ Hf).
Qed.

(** Whatever the filter: the requests that reach the store are none or
    one, and a returned list is the store's answer to that one. *)
Lemma vector_search_cases self qe k filter_metadata table_rpc w :
  let o := vector_search self qe k filter_metadata table_rpc w in
  let args := mkSearchArgs (resolve_collection table_rpc) qe k None in
  (truthy filter_metadata = true ∧
   result o = inl models.positional_argument_error ∧
   final o = w ∧ store_calls (events o) = []) ∨
  (truthy filter_metadata = false ∧
   result o = match (search (client self) args w).1 with
              | inl e => inl e
              | inr hits => inr (flatten_hit <$> hits)
              end ∧
   final o = (search (client self) args w).2 ∧
   store_calls (events o) = [args]).
Proof.
  intros o args. subst o args.
  destruct (truthy filter_metadata) eqn:Hf.
  - left. by rewrite vector_search_truthy.
  - right. by rewrite vector_search_falsy.
Qed.

(** *** The alias table *)

Lemma COLLECTION_MAP_lookup (alias collection : string) :
  COLLECTION_MAP !! alias = Some collection ↔
    (alias = "match_archon_crawled_pages" ∧ collection = "docs") ∨
    (alias = "match_archon_code_examples" ∧ collection = "code").
Proof.
  unfold COLLECTION_MAP. split.
  - intros H.
    destruct (decide (alias = "match_archon_code_examples")) as [->|Hc].
    + rewrite lookup_insert_eq in H. right. by inversion H.
    + rewrite lookup_insert_ne in H by done.
      destruct (decide (alias = "match_archon_crawled_pages")) as [->|Hd].
      * rewrite lookup_insert_eq in H. left. by inversion H.
      * rewrite lookup_insert_ne in H by done. by rewrite lookup_empty in H.
  - intros [[-> ->]|[-> ->]]; reflexivity.
Qed.

Lemma resolve_unknown (alias : string) :
  COLLECTION_MAP !! alias = None → resolve_collection alias = alias.
Proof. unfold resolve_collection. by intros ->. Qed.

(** *** The flat record *)

(** The payload entry wins; [id] and [score] fill in where the payload
    has no entry of that name. *)
Lemma flatten_hit_lookup (r : models.ScoredPoint) (k : string) :
  flatten_hit r !! k =
    match default ∅ (models.payload r) !! k with
    | Some v => Some v
    | None =>
        if decide (k = "score") then Some (PFloat (models.score r))
        else if decide (k = "id") then Some (models.id_value (models.id r))
        else None
    end.
Proof.
  unfold flatten_hit, dict_update. rewrite lookup_union.
  destruct (default ∅ (models.payload r) !! k) as [v|] eqn:Hp.
  - by rewrite union_Some_l.
  - rewrite (left_id None _). rewrite lookup_insert.
    destruct (decide ("score" = k)) as [<-|Hs].
    + by rewrite decide_True.
    + rewrite decide_False by done. rewrite lookup_insert.
      destruct (decide ("id" = k)) as [<-|Hi].
      * by rewrite decide_True.
      * rewrite decide_False by done. apply lookup_empty.
Qed.

Lemma flatten_hit_payload (r : models.ScoredPoint) m (k : string) (v : pyval) :
  models.payload r = Some m → m !! k = Some v → flatten_hit r !! k = Some v.
Proof. intros Hp Hk. rewrite flatten_hit_lookup, Hp. simpl. by rewrite Hk. Qed.

End SearchFacts.

Section ServiceFacts.

Context {World : Type}.
Variable create_embedding : string → World → (exn + list float) * World.
Implicit Types (svc : RAGService World) (w : World).
Implicit Types (filter_metadata : option (gmap string pyval)).

Lemma search_documents_protocol :
  search_documents create_embedding =
    search_protocol create_embedding
      "rag_search_documents" "match_archon_crawled_pages".
Proof. reflexivity. Qed.

Lemma search_code_examples_protocol :
  search_code_examples create_embedding =
    search_protocol create_embedding
      "rag_search_code" "match_archon_code_examples".
Proof. reflexivity. Qed.

(** A failing embedder ends the run before the strategy is entered. *)
Lemma search_protocol_embed_fails span_name table_rpc svc q k filter_metadata w e :
  (create_embedding q w).1 = inl e →
  search_protocol create_embedding span_name table_rpc svc q k filter_metadata w =
    mkOutcome (inl e) (create_embedding q w).2
      [EvSpan span_name (String.length q) k; EvEmbed q].
Proof.
  intros He.
  unfold search_protocol, safe_span, mbind, M_bind, bind, emit, embed, call.
  cbn [result final events]. rewrite He. reflexivity.
Qed.

(** With an embedding in hand the run is that of [vector_search], in the
    world the embedder left, followed by the span attribute on success. *)
Lemma search_protocol_embed_ok span_name table_rpc svc q k filter_metadata w v :
  (create_embedding q w).1 = inr v →
  let o := vector_search (base_strategy svc) v k filter_metadata table_rpc
             (create_embedding q w).2 in
  search_protocol create_embedding span_name table_rpc svc q k filter_metadata w =
    mkOutcome (result o) (final o)
      ([EvSpan span_name (String.length q) k; EvEmbed q] ++ events o ++
       match result o with
       | inl _ => []
       | inr results => [EvSetAttribute "results_found" (length results)]
       end).
Proof.
  intros Hv o. subst o.
  unfold search_protocol, safe_span, mbind, M_bind, bind, emit, embed, call,
    set_results_found, mret, M_ret, ret.
  cbn [result final events]. rewrite Hv. cbn [result final events].
  destruct (vector_search (base_strategy svc) v k filter_metadata table_rpc _)
    as [[e|rs] w' evs]; cbn [result final events app].
  - by rewrite app_nil_r.
  - reflexivity.
Qed.

Lemma store_calls_app (l1 l2 : list Event) :
  store_calls (l1 ++ l2) = store_calls l1 ++ store_calls l2.
Proof. unfold store_calls. apply omap_app. Qed.


Lemma search_protocol_store_calls span_name table_rpc svc q k filter_metadata w :
  store_calls (events (search_protocol create_embedding span_name table_rpc svc q k filter_metadata w)) =
    match (create_embedding q w).1 with
    | inl _ => []
    | inr v =>
        store_calls (events (vector_search (base_strategy svc) v k
                               filter_metadata table_rpc (create_embedding q w).2))
    end.
Proof.
  destruct (create_embedding q w).1 as [e|v] eqn:He.
  - by rewrite (search_protocol_embed_fails _ _ _ _ _ _ _ e).
  - rewrite (search_protocol_embed_ok _ _ _ _ _ _ _ v) by done.
    cbn [events]. rewrite !store_calls_app.
    destruct (result _); simpl; by rewrite ?app_nil_r.
Qed.

Lemma search_protocol_result span_name table_rpc svc q k filter_metadata w :
  result (search_protocol create_embedding span_name table_rpc svc q k filter_metadata w) =
    match (create_embedding q w).1 with
    | inl e => inl e
    | inr v =>
        result (vector_search (base_strategy svc) v k filter_metadata table_rpc
                  (create_embedding q w).2)
    end.
Proof.
  destruct (create_embedding q w).1 as [e|v] eqn:He.
  - by rewrite (search_protocol_embed_fails _ _ _ _ _ _ _ e).
  - by rewrite (search_protocol_embed_ok _ _ _ _ _ _ _ v).
Qed.

Lemma search_protocol_final span_name table_rpc svc q k filter_metadata w :
  final (search_protocol create_embedding span_name table_rpc svc q k filter_metadata w) =
    match (create_embedding q w).1 with
    | inl e => (create_embedding q w).2
    | inr v =>
        final (vector_search (base_strategy svc) v k filter_metadata table_rpc
                 (create_embedding q w).2)
    end.
Proof.
  destruct (create_embedding q w).1 as [e|v] eqn:He.
  - by rewrite (search_protocol_embed_fails _ _ _ _ _ _ _ e).
  - by rewrite (search_protocol_embed_ok _ _ _ _ _ _ _ v).
Qed.

End ServiceFacts.

(** ** The stand-in store keeps the contract *)

Lemma mock_search_hits (args : SearchArgs) (w : Mock.world)
    (hits : list models.ScoredPoint) :
  (Mock.search args w).1 = inr hits →
  ∃ points,
    Mock.collections w !! collection_name args = Some points ∧
    hits = take (Z.to_nat (limit args))
             (List.filter (Mock.passes (query_filter args)) points).
Proof.
  unfold Mock.search.
  destruct (Mock.collections w !! collection_name args) as [points|]; simpl.
  - intros [= <-]. by exists points.
  - discriminate.
Qed.

Lemma mock_honours_limit : honours_limit Mock.qdrant.
Proof.
  intros args w hits Hhits Hpos.
  apply mock_search_hits in Hhits as (points & _ & ->).
  rewrite length_take. lia.
Qed.

Lemma mock_search_reads_only : search_reads_only Mock.qdrant.
Proof.
  intros args w. simpl. unfold Mock.search.
  by destruct (Mock.collections w !! collection_name args).
Qed.

Lemma mock_embedder_reads_only : embedder_reads_only Mock.create_embedding.
Proof. intros text w. unfold Mock.create_embedding. by destruct (Mock.embedder_up w). Qed.

(** * The specified properties of the retrieval layer

    In the statements below a filter is called falsy when it is absent or
    empty, [truthy f = false]: these are the filters for which the search
    reaches the store. *)

(** C1.  On every call [vector_search] resolves the alias first: the line
    it logs names collection "docs" for "match_archon_crawled_pages",
    "code" for "match_archon_code_examples", and for an alias missing from
    [COLLECTION_MAP] the alias itself; and every request that it,
    [search_documents] or [search_code_examples] sends to the store goes to
    that collection, the two service operations binding the first and the
    second alias.  For a falsy filter that is exactly one request, carrying
    the embedding and the match count. *)
Theorem alias_resolution {World : Type}
    (create_embedding : string → World → (exn + list float) * World)
    (self : BaseSearchStrategy World) (svc : RAGService World)
    (qe : list float) (q : string) (k : Z)
    (f : option (gmap string pyval)) (w : World) (alias : string) :
  COLLECTION_MAP !! alias = None →
  let run table_rpc := events (vector_search self qe k f table_rpc w) in
  let docs := events (search_documents create_embedding svc q k f w) in
  let code := events (search_code_examples create_embedding svc q k f w) in
  (run "match_archon_crawled_pages" !! 0%nat =
     Some (EvDebug "Vector search" "docs" k f) ∧
   run "match_archon_code_examples" !! 0%nat =
     Some (EvDebug "Vector search" "code" k f) ∧
   run alias !! 0%nat = Some (EvDebug "Vector search" alias k f)) ∧
  (Forall (λ a, collection_name a = "docs")
     (store_calls (run "match_archon_crawled_pages")) ∧
   Forall (λ a, collection_name a = "code")
     (store_calls (run "match_archon_code_examples")) ∧
   Forall (λ a, collection_name a = alias) (store_calls (run alias)) ∧
   Forall (λ a, collection_name a = "docs") (store_calls docs) ∧
   Forall (λ a, collection_name a = "code") (store_calls code)) ∧
  (truthy f = false →
   store_calls (run "match_archon_crawled_pages") = [mkSearchArgs "docs" qe k None] ∧
   store_calls (run "match_archon_code_examples") = [mkSearchArgs "code" qe k None] ∧
   store_calls (run alias) = [mkSearchArgs alias qe k None] ∧
   store_calls docs =
     match (create_embedding q w).1 with
     | inl _ => []
     | inr v => [mkSearchArgs "docs" v k None]
     end ∧
   store_calls code =
     match (create_embedding q w).1 with
     | inl _ => []
     | inr v => [mkSearchArgs "code" v k None]
     end).
Proof.
  intros Hunknown run docs code. subst run docs code. cbv beta.
  assert (Hlog : ∀ t, events (vector_search self qe k f t w) !! 0%nat =
                      Some (EvDebug "Vector search" (resolve_collection t) k f)).
  { intros t. rewrite vector_search_run. by destruct (build_query_filter f). }
  assert (Hall : ∀ (s : BaseSearchStrategy World) v t w',
            Forall (λ a, collection_name a = resolve_collection t)
              (store_calls (events (vector_search s v k f t w')))).
  { intros s v t w'.
    destruct (vector_search_cases s v k f t w') as [(_ & _ & _ & ->)|(_ & _ & _ & ->)].
    - constructor.
    - by repeat constructor. }
  assert (Hsvc : ∀ span t,
            Forall (λ a, collection_name a = resolve_collection t)
              (store_calls (events (search_protocol create_embedding span t svc
                                      q k f w)))).
  { intros span t. rewrite search_protocol_store_calls.
    destruct (create_embedding q w).1; [constructor|apply Hall]. }
  split; [|split].
  - split; [apply Hlog|]. split; [apply Hlog|].
    rewrite Hlog. by rewrite (resolve_unknown alias Hunknown).
  - split; [apply (Hall self qe "match_archon_crawled_pages")|].
    split; [apply (Hall self qe "match_archon_code_examples")|].
    split.
    { pose proof (Hall self qe alias w) as Halias.
      by rewrite (resolve_unknown alias Hunknown) in Halias. }
    split.
    + rewrite search_documents_protocol.
      apply (Hsvc "rag_search_documents" "match_archon_crawled_pages").
    + rewrite search_code_examples_protocol.
      apply (Hsvc "rag_search_code" "match_archon_code_examples").
  - intros Hf. rewrite !(vector_search_falsy _ _ _ _ _ _ Hf). cbn [events].
    rewrite (resolve_unknown alias Hunknown).
    split; [done|]. split; [done|]. split; [done|].
    rewrite search_documents_protocol, search_code_examples_protocol.
    rewrite !search_protocol_store_calls.
    destruct (create_embedding q w).1 as [e|v]; [done|].
    by rewrite !(vector_search_falsy _ _ _ _ _ _ Hf).
Qed.

Lemma alias_resolution_witness :
  COLLECTION_MAP !! "foo" = None ∧
  store_calls (events (vector_search Mock.strategy Mock.fixed_vector 5 None "foo" Mock.w0))
    = [mkSearchArgs "foo" Mock.fixed_vector 5 None].
Proof.
  split; [reflexivity|].
  exact (proj1 (proj2 (proj2 (proj2 (proj2
    (alias_resolution Mock.create_embedding Mock.strategy Mock.service
       Mock.fixed_vector "q" 5 None Mock.w0 "foo" eq_refl)) eq_refl)))).
Defined.

(** C2.  What the code does for a filter mapping with entries: building
    the first condition, [models.MatchValue(v)] is handed its value by
    position and raises [TypeError], so [vector_search] raises after its
    debug line, without a filter having been built and without a request to
    the store. *)
Theorem nonempty_filter_raises_before_the_store {World : Type}
    (self : BaseSearchStrategy World) (qe : list float) (k : Z)
    (m : gmap string pyval) (table_rpc : string) (w : World) :
  m ≠ ∅ →
  let o := vector_search self qe k (Some m) table_rpc w in
  result o =
    inl (Exn "TypeError"
           "BaseModel.__init__() takes 1 positional argument but 2 were given") ∧
  store_calls (events o) = [] ∧
  final o = w.
Proof.
  intros Hne o. subst o.
  assert (Hf : truthy (Some m) = true).
  { destruct (truthy (Some m)) eqn:Ht; [done|].
    apply truthy_false in Ht as [|[= ->]]; done. }
  by rewrite (vector_search_truthy _ _ _ _ _ _ Hf).
Qed.

Lemma mock_go_nonempty : Mock.go ≠ ∅.
Proof.
  intros Heq. apply (f_equal (λ d : gmap string pyval, d !! "language")) in Heq.
  discriminate Heq.
Qed.

Lemma nonempty_filter_raises_before_the_store_witness :
  Mock.go ≠ ∅ ∧
  result (vector_search Mock.strategy Mock.fixed_vector 3 (Some Mock.go)
            "match_archon_code_examples" Mock.w0) =
    inl (Exn "TypeError"
           "BaseModel.__init__() takes 1 positional argument but 2 were given") ∧
  store_calls (events (vector_search Mock.strategy Mock.fixed_vector 3
                         (Some Mock.go) "match_archon_code_examples" Mock.w0))
    = [].
Proof.
  split; [exact mock_go_nonempty|].
  pose proof (nonempty_filter_raises_before_the_store Mock.strategy
                Mock.fixed_vector 3 Mock.go "match_archon_code_examples" Mock.w0
                mock_go_nonempty) as (Hres & Hcalls & _).
  split; [exact Hres|exact Hcalls].
Defined.

(** C3.  For a match count [K > 0], every request of [vector_search] asks
    the store for [limit = K], and for a falsy filter there is exactly one
    such request.  A list that the call returns is the answer of the store
    to that request, hit by hit in the store's order, each record the flat
    merge of the hit's [id], [score] and payload; and against a store that
    returns no more points than the limit it is asked for, the list has at
    most [K] records. *)
Theorem at_most_match_count_in_store_order {World : Type}
    (self : BaseSearchStrategy World) (qe : list float) (K : Z)
    (f : option (gmap string pyval)) (table_rpc : string) (w : World) :
  0 < K →
  honours_limit (client self) →
  let o := vector_search self qe K f table_rpc w in
  Forall (λ a, limit a = K) (store_calls (events o)) ∧
  (truthy f = false →
   store_calls (events o) = [mkSearchArgs (resolve_collection table_rpc) qe K None]) ∧
  (∀ records, result o = inr records →
     Z.of_nat (length records) ≤ K ∧
     ∃ args hits,
       store_calls (events o) = [args] ∧
       (search (client self) args w).1 = inr hits ∧
       records = flatten_hit <$> hits ∧
       Forall2 (λ p record, ∀ key,
                  record !! key =
                    match default ∅ (models.payload p) !! key with
                    | Some v => Some v
                    | None =>
                        if decide (key = "score")
                        then Some (PFloat (models.score p))
                        else if decide (key = "id")
                        then Some (models.id_value (models.id p))
                        else None
                    end)
         hits records).
Proof.
  intros HK Hstore o. subst o.
  destruct (vector_search_cases self qe K f table_rpc w)
    as [(Hf & Hres & _ & Hcalls)|(Hf & Hres & _ & Hcalls)];
    rewrite Hres, Hcalls.
  - split; [constructor|]. split; [by rewrite Hf|]. discriminate.
  - split; [by repeat constructor|]. split; [done|].
    intros records Hrec.
    destruct (search (client self) _ w).1 as [e|hits] eqn:Hans; [discriminate|].
    injection Hrec as <-. split.
    + rewrite length_fmap. by apply (Hstore _ _ _ Hans).
    + eexists _, hits. split; [reflexivity|]. split; [exact Hans|].
      split; [reflexivity|].
      apply Forall2_fmap_r, Forall_Forall2_diag, Forall_forall.
      intros p _ key. apply flatten_hit_lookup.
Qed.

Lemma at_most_match_count_in_store_order_witness :
  0 < 2 ∧ honours_limit Mock.qdrant ∧
  limit <$> store_calls (events (vector_search Mock.strategy Mock.fixed_vector 2
                                   None "match_archon_code_examples" Mock.w0))
    = [2] ∧
  match result (vector_search Mock.strategy Mock.fixed_vector 2 None
                  "match_archon_code_examples" Mock.w0) with
  | inr records => Z.of_nat (length records) ≤ 2
  | inl _ => False
  end.
Proof.
  split; [reflexivity|]. split; [exact mock_honours_limit|].
  pose proof (at_most_match_count_in_store_order Mock.strategy Mock.fixed_vector
                2 None "match_archon_code_examples" Mock.w0
                eq_refl mock_honours_limit) as (_ & Hone & Hrecords).
  split; [by rewrite (Hone eq_refl)|].
  destruct (result (vector_search Mock.strategy Mock.fixed_vector 2 None
                      "match_archon_code_examples" Mock.w0))
    as [e|records] eqn:Hres.
  - vm_compute in Hres. discriminate Hres.
  - exact (proj1 (Hrecords records eq_refl)).
Defined.

(** C4.  When the embedding provider raises [e], [search_documents] and
    [search_code_examples] raise that same [e] and make no store call.
    When the store is asked and raises [e], they raise that same [e].  And
    they return the empty sequence only if the embedding succeeded, the
    store was asked, and the store itself answered with zero hits. *)
Theorem failures_are_propagated {World : Type}
    (create_embedding : string → World → (exn + list float) * World)
    (svc : RAGService World) (q : string) (k : Z)
    (f : option (gmap string pyval)) (w : World) :
  let answer args :=
    (search (client (base_strategy svc)) args (create_embedding q w).2).1 in
  let docs := search_documents create_embedding svc q k f w in
  let code := search_code_examples create_embedding svc q k f w in
  (∀ e, (create_embedding q w).1 = inl e →
     (result docs = inl e ∧ store_calls (events docs) = []) ∧
     (result code = inl e ∧ store_calls (events code) = [])) ∧
  (∀ args e,
     (store_calls (events docs) = [args] → answer args = inl e →
      result docs = inl e) ∧
     (store_calls (events code) = [args] → answer args = inl e →
      result code = inl e)) ∧
  (result docs = inr [] →
     ∃ v, (create_embedding q w).1 = inr v ∧
          store_calls (events docs) = [mkSearchArgs "docs" v k None] ∧
          answer (mkSearchArgs "docs" v k None) = inr []) ∧
  (result code = inr [] →
     ∃ v, (create_embedding q w).1 = inr v ∧
          store_calls (events code) = [mkSearchArgs "code" v k None] ∧
          answer (mkSearchArgs "code" v k None) = inr []).
Proof.
  intros answer docs code. subst answer docs code. cbv beta.
  rewrite search_documents_protocol, search_code_examples_protocol.
  rewrite !search_protocol_result, !search_protocol_store_calls.
  assert (Hasked : ∀ t v args e,
    store_calls (events (vector_search (base_strategy svc) v k f t
                           (create_embedding q w).2)) = [args] →
    (search (client (base_strategy svc)) args (create_embedding q w).2).1 = inl e →
    result (vector_search (base_strategy svc) v k f t (create_embedding q w).2)
      = inl e).
  { intros t v args e.
    destruct (vector_search_cases (base_strategy svc) v k f t
                (create_embedding q w).2)
      as [(_ & _ & _ & ->)|(_ & -> & _ & ->)]; [discriminate|].
    intros [= <-] ->. done. }
  assert (Hempty : ∀ t v,
    result (vector_search (base_strategy svc) v k f t (create_embedding q w).2)
      = inr [] →
    store_calls (events (vector_search (base_strategy svc) v k f t
                           (create_embedding q w).2))
      = [mkSearchArgs (resolve_collection t) v k None] ∧
    (search (client (base_strategy svc))
       (mkSearchArgs (resolve_collection t) v k None)
       (create_embedding q w).2).1 = inr []).
  { intros t v.
    destruct (vector_search_cases (base_strategy svc) v k f t
                (create_embedding q w).2)
      as [(_ & -> & _ & _)|(_ & -> & _ & ->)]; [discriminate|].
    destruct (search _ _ _).1 as [e|hits]; [discriminate|].
    intros [= Hnil]. apply fmap_nil_inv in Hnil. by subst. }
  split; [|split; [|split]].
  - intros e He. by rewrite He.
  - intros args e. destruct (create_embedding q w).1 as [e'|v].
    + split; discriminate.
    + split; apply Hasked.
  - destruct (create_embedding q w).1 as [e|v]; [discriminate|].
    intros Hres. exists v. split; [done|].
    apply (Hempty "match_archon_crawled_pages" v Hres).
  - destruct (create_embedding q w).1 as [e|v]; [discriminate|].
    intros Hres. exists v. split; [done|].
    apply (Hempty "match_archon_code_examples" v Hres).
Qed.

Lemma failures_are_propagated_witness :
  ((Mock.create_embedding "pooling" Mock.w_down).1 =
     inl (Exn "EmbeddingError" "provider unavailable") ∧
   result (search_documents Mock.create_embedding Mock.service "pooling" 5 None
             Mock.w_down) = inl (Exn "EmbeddingError" "provider unavailable") ∧
   store_calls (events (search_documents Mock.create_embedding Mock.service
                          "pooling" 5 None Mock.w_down)) = []) ∧
  (store_calls (events (search_documents Mock.create_embedding Mock.service
                          "pooling" 5 None Mock.w_bare))
     = [mkSearchArgs "docs" Mock.fixed_vector 5 None] ∧
   (Mock.search (mkSearchArgs "docs" Mock.fixed_vector 5 None) Mock.w_bare).1 =
     inl (Exn "ValueError" "Collection docs not found") ∧
   result (search_documents Mock.create_embedding Mock.service "pooling" 5 None
             Mock.w_bare) = inl (Exn "ValueError" "Collection docs not found")).
Proof.
  split.
  - split; [reflexivity|].
    exact (proj1 (proj1 (failures_are_propagated Mock.create_embedding
                           Mock.service "pooling" 5 None Mock.w_down)
                    (Exn "EmbeddingError" "provider unavailable") eq_refl)).
  - split; [reflexivity|]. split; [reflexivity|].
    exact (proj1 (proj1 (proj2 (failures_are_propagated Mock.create_embedding
                                  Mock.service "pooling" 5 None Mock.w_bare))
                    (mkSearchArgs "docs" Mock.fixed_vector 5 None)
                    (Exn "ValueError" "Collection docs not found"))
             eq_refl eq_refl).
Defined.

(** C5, as the code has it.  [vector_search] does not look at the match
    count: for [match_count ≤ 0] and a falsy filter it makes its one store
    round trip as for any other count, with [limit = match_count], and
    hands back what the store answers, an exception unchanged or the
    flattened hits. *)
Theorem nonpositive_match_count_is_forwarded {World : Type}
    (self : BaseSearchStrategy World) (qe : list float) (k : Z)
    (f : option (gmap string pyval)) (table_rpc : string) (w : World) :
  k ≤ 0 →
  truthy f = false →
  let o := vector_search self qe k f table_rpc w in
  let args := mkSearchArgs (resolve_collection table_rpc) qe k None in
  store_calls (events o) = [args] ∧
  limit args = k ∧
  result o = match (search (client self) args w).1 with
             | inl e => inl e
             | inr hits => inr (flatten_hit <$> hits)
             end.
Proof.
  intros _ Hf o args. subst o args.
  by rewrite (vector_search_falsy _ _ _ _ _ _ Hf).
Qed.

Lemma nonpositive_match_count_is_forwarded_witness :
  -1 ≤ 0 ∧ truthy None = false ∧
  limit <$> store_calls (events (vector_search Mock.strategy Mock.fixed_vector (-1)
                                   None "match_archon_crawled_pages" Mock.w0))
    = [-1].
Proof.
  split; [lia|]. split; [reflexivity|].
  pose proof (nonpositive_match_count_is_forwarded Mock.strategy Mock.fixed_vector
                (-1) None "match_archon_crawled_pages" Mock.w0 ltac:(lia) eq_refl)
    as (Hcalls & _ & _).
  by rewrite Hcalls.
Defined.

(** C5, as the spec has it, fails: with match count 0 the search goes to
    the store, which is asked for [limit = 0], and the call returns an empty
    list instead of raising. *)
Lemma zero_match_count_reaches_the_store :
  let o := vector_search Mock.strategy Mock.fixed_vector 0 None
             "match_archon_crawled_pages" Mock.w0 in
  0 ≤ 0 ∧
  result o = inr [] ∧
  store_calls (events o) = [mkSearchArgs "docs" Mock.fixed_vector 0 None] ∧
  ¬ (∃ e, result o = inl e ∧ store_calls (events o) = []).
Proof.
  split; [lia|]. split; [reflexivity|]. split; [reflexivity|].
  intros (e & Hres & _). vm_compute in Hres. discriminate Hres.
Qed.

(** C6.  For an absent filter ([None]) and for an empty one, the one
    request of [vector_search] carries no filter at all, and the call
    returns the store's answer to that unfiltered request, flattened. *)
Theorem empty_filter_sends_no_predicate {World : Type}
    (self : BaseSearchStrategy World) (qe : list float) (k : Z)
    (table_rpc : string) (w : World) :
  let unfiltered := mkSearchArgs (resolve_collection table_rpc) qe k None in
  let answer :=
    match (search (client self) unfiltered w).1 with
    | inl e => inl e
    | inr hits => inr (flatten_hit <$> hits)
    end in
  (store_calls (events (vector_search self qe k None table_rpc w)) = [unfiltered] ∧
   result (vector_search self qe k None table_rpc w) = answer) ∧
  (store_calls (events (vector_search self qe k (Some ∅) table_rpc w)) = [unfiltered] ∧
   result (vector_search self qe k (Some ∅) table_rpc w) = answer).
Proof.
  intros unfiltered answer. subst unfiltered answer.
  rewrite (vector_search_falsy self qe k None table_rpc w eq_refl).
  assert (Hempty : truthy (Some (∅ : gmap string pyval)) = false) by reflexivity.
  rewrite (vector_search_falsy self qe k (Some ∅) table_rpc w Hempty).
  done.
Qed.

(** C7.  With collaborators that only read (an embedder and a store whose
    [search] leave the world as it was, and whose answers are functions of
    that world), [search_documents] leaves the world unchanged, and a second
    call with the same arguments returns the same result: the same records
    in the same order, or the same exception.  The service and the strategy
    are values that the call does not replace. *)
Theorem search_documents_is_repeatable {World : Type}
    (create_embedding : string → World → (exn + list float) * World)
    (svc : RAGService World) (q : string) (k : Z)
    (f : option (gmap string pyval)) (w : World) :
  embedder_reads_only create_embedding →
  search_reads_only (client (base_strategy svc)) →
  let first := search_documents create_embedding svc q k f w in
  let second := search_documents create_embedding svc q k f (final first) in
  final first = w ∧
  final second = w ∧
  result second = result first ∧
  store_calls (events second) = store_calls (events first).
Proof.
  intros Hembed Hsearch first second.
  assert (Hfinal : ∀ w', final (search_documents create_embedding svc q k f w') = w').
  { intros w'. rewrite search_documents_protocol, search_protocol_final.
    destruct (create_embedding q w').1 as [e|v].
    - apply Hembed.
    - destruct (vector_search_cases (base_strategy svc) v k f
                  "match_archon_crawled_pages" (create_embedding q w').2)
        as [(_ & _ & -> & _)|(_ & _ & -> & _)].
      + apply Hembed.
      + rewrite Hsearch. apply Hembed. }
  subst second first. rewrite !Hfinal. done.
Qed.

Lemma search_documents_is_repeatable_witness :
  embedder_reads_only Mock.create_embedding ∧
  search_reads_only (client (base_strategy Mock.service)) ∧
  result (search_documents Mock.create_embedding Mock.service "pooling" 3 None
            (final (search_documents Mock.create_embedding Mock.service
                      "pooling" 3 None Mock.w0)))
    = result (search_documents Mock.create_embedding Mock.service "pooling" 3 None
                Mock.w0).
Proof.
  split; [exact mock_embedder_reads_only|].
  split; [exact mock_search_reads_only|].
  exact (proj1 (proj2 (proj2
    (search_documents_is_repeatable Mock.create_embedding Mock.service "pooling"
       3 None Mock.w0 mock_embedder_reads_only mock_search_reads_only)))).
Defined.

(** C8, as the code has it.  The alias table has exactly two entries:
    "match_archon_crawled_pages" for "docs" and "match_archon_code_examples"
    for "code". *)
Theorem alias_table_contents :
  size COLLECTION_MAP = 2%nat ∧
  ∀ alias collection : string,
    COLLECTION_MAP !! alias = Some collection ↔
      (alias = "match_archon_crawled_pages" ∧ collection = "docs") ∨
      (alias = "match_archon_code_examples" ∧ collection = "code").
Proof.
  split; [reflexivity|]. apply COLLECTION_MAP_lookup.
Qed.

(** C8, as the spec has it, fails: the table is not the mapping with the
    keys "documents-alias" and "code-alias", neither of which it holds. *)
Lemma alias_table_is_not_the_spec_table :
  COLLECTION_MAP ≠
    <["code-alias" := "code"]> (<["documents-alias" := "docs"]> ∅) ∧
  COLLECTION_MAP !! "documents-alias" = None ∧
  COLLECTION_MAP !! "code-alias" = None.
Proof.
  split; [|split; reflexivity].
  intros Heq.
  apply (f_equal (λ t : gmap string string, t !! "documents-alias")) in Heq.
  discriminate Heq.
Qed.

(** C9.  When the payload of a raw hit has an entry named "id" or "score",
    the record that [vector_search] returns for that hit carries the
    payload's value under that name, whatever the hit's own id and score:
    for the request the call sent and the hits the store answered with, the
    records are returned hit for hit, and where the payload of the i-th hit
    has such an entry, the i-th record has it. *)
Theorem payload_shadows_id_and_score {World : Type}
    (self : BaseSearchStrategy World) (qe : list float) (k : Z)
    (f : option (gmap string pyval)) (table_rpc : string) (w : World)
    (args : SearchArgs)
    (hits : list models.ScoredPoint) (i : nat) (p : models.ScoredPoint)
    (m : gmap string pyval) (key : string) (v : pyval) :
  store_calls (events (vector_search self qe k f table_rpc w)) = [args] →
  (search (client self) args w).1 = inr hits →
  hits !! i = Some p →
  models.payload p = Some m →
  key = "id" ∨ key = "score" →
  m !! key = Some v →
  ∃ records record,
    result (vector_search self qe k f table_rpc w) = inr records ∧
    length records = length hits ∧
    records !! i = Some record ∧
    record !! key = Some v.
Proof.
  intros Hcall Hans Hi Hp _ Hv.
  exists (flatten_hit <$> hits), (flatten_hit p).
  destruct (vector_search_cases self qe k f table_rpc w)
    as [(_ & _ & _ & Hcalls)|(_ & Hres & _ & Hcalls)];
    rewrite Hcalls in Hcall; [discriminate|].
  injection Hcall as <-. rewrite Hres, Hans.
  split; [done|]. split; [apply length_fmap|]. split.
  - by rewrite list_lookup_fmap, Hi.
  - by apply (flatten_hit_payload p m).
Qed.

Lemma payload_shadows_id_and_score_witness :
  ∃ records record,
    result (vector_search Mock.strategy Mock.fixed_vector 5 None
              "match_archon_code_examples" Mock.w0) = inr records ∧
    length records = length Mock.code_points ∧
    records !! 2%nat = Some record ∧
    record !! "id" = Some (PStr "shadow").
Proof.
  exact (payload_shadows_id_and_score Mock.strategy Mock.fixed_vector 5 None
           "match_archon_code_examples" Mock.w0
           (mkSearchArgs "code" Mock.fixed_vector 5 None)
           Mock.code_points 2
           (models.mkScoredPoint (models.IdStr "c2") 0.5%float (Some Mock.shadow))
           Mock.shadow "id" (PStr "shadow")
           eq_refl eq_refl eq_refl eq_refl (or_introl eq_refl) eq_refl).
Defined.

(** * The specified property of the task service *)

Section TaskFacts.

Import TaskService.

Variable isoformat_now : nat → string.
Variable next_rowid : list TaskRow → Z.

Lemma not_in_valid_statuses_true (status : string) :
  status ∉ VALID_STATUSES → not_in_valid_statuses status = true.
Proof.
  intros Hnot. unfold not_in_valid_statuses. by rewrite bool_decide_eq_false_2.
Qed.

Lemma not_in_valid_statuses_false (status : string) :
  status ∈ VALID_STATUSES → not_in_valid_statuses status = false.
Proof.
  intros Hin. unfold not_in_valid_statuses. by rewrite bool_decide_eq_true_2.
Qed.

Lemma rowcount_zero (task_id : Z) (rows : list TaskRow) :
  rowcount task_id rows = 0%nat ↔ ¬ ∃ row, row ∈ rows ∧ id row = task_id.
Proof.
  unfold rowcount. induction rows as [|row rows IH]; simpl.
  - split; [|done]. intros _ (row & Hin & _). by apply not_elem_of_nil in Hin.
  - destruct (bool_decide (id row = task_id)) eqn:Hid; simpl.
    + split; [discriminate|]. intros Hnone. exfalso. apply Hnone.
      exists row. split; [left|]. by apply bool_decide_eq_true in Hid.
    + apply bool_decide_eq_false in Hid. rewrite IH. split.
      * intros Hnone (row' & Hin & Heq). apply elem_of_cons in Hin as [->|Hin].
        -- contradiction.
        -- apply Hnone. by exists row'.
      * intros Hnone (row' & Hin & Heq). apply Hnone. exists row'.
        split; [by right|done].
Qed.

(** The range of SQLite's INTEGER, in plain arithmetic. *)
Lemma fits_integer_range (n : Z) :
  sqlite3.fits_integer n = true ↔ - 2 ^ 63 ≤ n < 2 ^ 63.
Proof. unfold sqlite3.fits_integer. rewrite andb_true_iff. lia. Qed.

Lemma update_status_valid (task_id : Z) (status : string) (db : Database) :
  status ∈ VALID_STATUSES →
  sqlite3.fits_integer task_id = true →
  update_status isoformat_now task_id status db =
    let stamp := isoformat_now (clock_reads db) in
    let db' := mkDatabase (set_status task_id status stamp <$> archon_tasks db)
                 (S (connections_opened db)) (S (clock_reads db)) in
    if Nat.eqb (rowcount task_id (archon_tasks db)) 0
    then (inr (false,
               error ("Task with ID " +:+ pretty task_id +:+ " not found")), db')
    else (inr (true,
               {[ "task" := PDict (<["status" := PStr status]>
                                    (<["id" := PInt task_id]> ∅)) ]}),
          db').
Proof.
  intros Hin Hfits. unfold update_status.
  rewrite (not_in_valid_statuses_false status Hin). cbn [now].
  by rewrite Hfits.
Qed.

(** An id that SQLite cannot hold: the statement raises, the block is
    rolled back. *)
Lemma update_status_overflow (task_id : Z) (status : string) (db : Database) :
  status ∈ VALID_STATUSES →
  sqlite3.fits_integer task_id = false →
  update_status isoformat_now task_id status db =
    (inl sqlite3.overflow_error,
     mkDatabase (archon_tasks db) (S (connections_opened db))
       (S (clock_reads db))).
Proof.
  intros Hin Hfits. unfold update_status.
  rewrite (not_in_valid_statuses_false status Hin). cbn [now].
  by rewrite Hfits.
Qed.

End TaskFacts.

(** C10, as the code has it.  For a status outside "todo", "doing",
    "review", "done", [create_task] and [update_status] return [False] with
    the error message "Invalid status '<status>'" and leave the database as
    it was: same rows, no connection opened.  For a status in that list and
    a task id that fits SQLite's INTEGER (64 bits with sign),
    [update_status] opens one connection and returns an error, [False] with
    "Task with ID <id> not found", exactly when no row of the table has the
    given id.  For a task id outside that range the statement raises
    [OverflowError]: nothing is returned and no row changes. *)
Theorem status_is_validated_before_the_database
    (isoformat_now : nat → string)
    (next_rowid : list TaskService.TaskRow → Z)
    (project_id task_id : Z)
    (title description assignee status valid_status : string)
    (db : TaskService.Database) :
  status ∉ ["todo"; "doing"; "review"; "done"] →
  valid_status ∈ ["todo"; "doing"; "review"; "done"] →
  let invalid : exn + bool * gmap string pyval :=
    inr (false, {[ "error" := PStr ("Invalid status '" +:+ status +:+ "'") ]}) in
  let not_found : exn + bool * gmap string pyval :=
    inr (false, {[ "error" := PStr ("Task with ID " +:+ pretty task_id
                                     +:+ " not found") ]}) in
  let updated := TaskService.update_status isoformat_now task_id valid_status db in
  let no_such_row :=
    ¬ ∃ row, row ∈ TaskService.archon_tasks db ∧ TaskService.id row = task_id in
  TaskService.create_task isoformat_now next_rowid project_id title description
    status assignee db = (invalid, db) ∧
  TaskService.update_status isoformat_now task_id status db = (invalid, db) ∧
  TaskService.connections_opened updated.2 =
    S (TaskService.connections_opened db) ∧
  (- 2 ^ 63 ≤ task_id < 2 ^ 63 →
     (updated.1 = not_found ↔ no_such_row) ∧
     ((∃ answer, updated.1 = inr (false, answer)) ↔ no_such_row)) ∧
  (¬ (- 2 ^ 63 ≤ task_id < 2 ^ 63) →
     updated.1 = inl (Exn "OverflowError"
                        "Python int too large to convert to SQLite INTEGER") ∧
     TaskService.archon_tasks updated.2 = TaskService.archon_tasks db).
Proof.
  intros Hbad Hgood invalid not_found updated no_such_row.
  subst invalid not_found updated no_such_row.
  split; [|split].
  - unfold TaskService.create_task.
    by rewrite (not_in_valid_statuses_true status Hbad).
  - unfold TaskService.update_status.
    by rewrite (not_in_valid_statuses_true status Hbad).
  - destruct (sqlite3.fits_integer task_id) eqn:Hfits.
    + rewrite (update_status_valid isoformat_now task_id valid_status db Hgood Hfits).
      cbv zeta. rewrite <- rowcount_zero.
      apply fits_integer_range in Hfits.
      destruct (TaskService.rowcount task_id (TaskService.archon_tasks db)) as [|n];
        cbn [fst snd Nat.eqb TaskService.connections_opened].
      * split; [done|]. split; [|by intros []]. intros _.
        split; [done|]. split; [done|]. intros _. by eexists.
      * split; [done|]. split; [|by intros []]. intros _.
        split; split; try discriminate. intros [answer Heq]. discriminate Heq.
    + rewrite (update_status_overflow isoformat_now task_id valid_status db Hgood Hfits).
      cbn [fst snd TaskService.connections_opened TaskService.archon_tasks].
      split; [done|]. split; [|done].
      intros Hrange. apply fits_integer_range in Hrange. congruence.
Qed.

Lemma status_is_validated_before_the_database_witness :
  ("blocked" ∉ ["todo"; "doing"; "review"; "done"]) ∧
  ("done" ∈ ["todo"; "doing"; "review"; "done"]) ∧
  TaskService.update_status TaskService.sample_clock 2 "blocked" TaskService.sample_db
    = (inr (false, {[ "error" := PStr "Invalid status 'blocked'" ]}),
       TaskService.sample_db) ∧
  (- 2 ^ 63 ≤ 3 < 2 ^ 63) ∧
  ((∃ answer,
      (TaskService.update_status TaskService.sample_clock 3 "done"
         TaskService.sample_db).1 = inr (false, answer))
   ↔ ¬ ∃ row, row ∈ TaskService.sample_rows ∧ TaskService.id row = 3).
Proof.
  assert (Hbad : "blocked" ∉ ["todo"; "doing"; "review"; "done"]).
  { apply (bool_decide_unpack _). vm_compute. exact I. }
  assert (Hgood : "done" ∈ ["todo"; "doing"; "review"; "done"]).
  { apply (bool_decide_unpack _). vm_compute. exact I. }
  assert (Hrange : - 2 ^ 63 ≤ 3 < 2 ^ 63) by lia.
  split; [exact Hbad|]. split; [exact Hgood|].
  pose proof (status_is_validated_before_the_database TaskService.sample_clock
                TaskService.sample_rowid 10 3 "t" "" "User" "blocked" "done"
                TaskService.sample_db Hbad Hgood) as (_ & _ & _ & Hin & _).
  pose proof (status_is_validated_before_the_database TaskService.sample_clock
                TaskService.sample_rowid 10 2 "t" "" "User" "blocked" "done"
                TaskService.sample_db Hbad Hgood) as (_ & Hinvalid & _).
  split; [exact Hinvalid|]. split; [exact Hrange|].
  exact (proj2 (Hin Hrange)).
Defined.

(** C10, without the bound on the task id, fails: for the valid status
    "done" and the task id [2 ^ 63], which no row has, [update_status] does
    not return the error, it raises. *)
Lemma update_status_raises_for_an_id_too_large :
  let updated := TaskService.update_status TaskService.sample_clock (2 ^ 63)
                   "done" TaskService.sample_db in
  ("done" ∈ ["todo"; "doing"; "review"; "done"]) ∧
  (¬ ∃ row, row ∈ TaskService.archon_tasks TaskService.sample_db ∧
            TaskService.id row = 2 ^ 63) ∧
  updated.1 = inl (Exn "OverflowError"
                     "Python int too large to convert to SQLite INTEGER") ∧
  ¬ (∃ answer, updated.1 = inr (false, answer)).
Proof.
  split; [apply (bool_decide_unpack _); vm_compute; exact I|].
  split.
  { intros (row & Hin & Hid).
    assert (Hall : Forall (λ r, TaskService.id r ≠ 2 ^ 63)
                     (TaskService.archon_tasks TaskService.sample_db)).
    { apply (bool_decide_unpack _). vm_compute. exact I. }
    rewrite Forall_forall in Hall. by apply (Hall row). }
  split; [reflexivity|].
  intros [answer Heq]. vm_compute in Heq. discriminate Heq.
Qed.

(** * Further properties of the retrieval layer *)

Section TraceFacts.

Context {World : Type}.
Variable create_embedding : string → World → (exn + list float) * World.
Implicit Types (svc : RAGService World) (w : World).
Implicit Types (filter_metadata : option (gmap string pyval)).

(** The events of a run of the protocol, whichever way it ends. *)
Lemma search_protocol_events span_name table_rpc svc q k filter_metadata w :
  let o := search_protocol create_embedding span_name table_rpc svc q k
             filter_metadata w in
  events o =
    EvSpan span_name (String.length q) k :: EvEmbed q ::
    match (create_embedding q w).1 with
    | inl _ => []
    | inr v =>
        events (vector_search (base_strategy svc) v k filter_metadata table_rpc
                  (create_embedding q w).2) ++
        match result o with
        | inl _ => []
        | inr records => [EvSetAttribute "results_found" (length records)]
        end
    end.
Proof.
  intros o. subst o.
  destruct (create_embedding q w).1 as [e|v] eqn:He.
  - by rewrite (search_protocol_embed_fails _ _ _ _ _ _ _ _ e).
  - by rewrite (search_protocol_embed_ok _ _ _ _ _ _ _ _ v).
Qed.

(** [vector_search] itself neither asks the embedder nor touches the
    span. *)
Lemma vector_search_quiet (self : BaseSearchStrategy World) qe k filter_metadata
    table_rpc w :
  embed_calls (events (vector_search self qe k filter_metadata table_rpc w)) = [] ∧
  span_attributes (events (vector_search self qe k filter_metadata table_rpc w)) = [].
Proof.
  rewrite vector_search_run.
  by destruct (build_query_filter filter_metadata).
Qed.

Lemma embed_calls_app (l1 l2 : list Event) :
  embed_calls (l1 ++ l2) = embed_calls l1 ++ embed_calls l2.
Proof. unfold embed_calls. apply omap_app. Qed.

Lemma span_attributes_app (l1 l2 : list Event) :
  span_attributes (l1 ++ l2) = span_attributes l1 ++ span_attributes l2.
Proof. unfold span_attributes. apply omap_app. Qed.

Lemma search_protocol_embed_calls span_name table_rpc svc q k filter_metadata w :
  embed_calls (events (search_protocol create_embedding span_name table_rpc svc
                         q k filter_metadata w)) = [q].
Proof.
  rewrite search_protocol_events.
  destruct (create_embedding q w).1 as [e|v]; [done|].
  change (embed_calls (EvSpan ?a ?b ?c :: EvEmbed q :: ?l)) with (q :: embed_calls l).
  rewrite embed_calls_app, (proj1 (vector_search_quiet _ _ _ _ _ _)).
  by destruct (result _).
Qed.

Lemma search_protocol_span_attributes span_name table_rpc svc q k
    filter_metadata w :
  let o := search_protocol create_embedding span_name table_rpc svc q k
             filter_metadata w in
  span_attributes (events o) =
    match result o with
    | inl _ => []
    | inr records => [("results_found", length records)]
    end.
Proof.
  intros o. subst o. rewrite search_protocol_events.
  destruct (create_embedding q w).1 as [e|v] eqn:He.
  - by rewrite (search_protocol_embed_fails _ _ _ _ _ _ _ _ e).
  - change (span_attributes (EvSpan ?a ?b ?c :: EvEmbed q :: ?l))
      with (span_attributes l).
    rewrite span_attributes_app, (proj2 (vector_search_quiet _ _ _ _ _ _)).
    by destruct (result _).
Qed.

End TraceFacts.

(** X1.  [search_documents] and [search_code_examples] ask the embedder
    exactly once, for the query text as it was given (the empty string
    included), and that request comes right after the span is entered,
    before anything else the call does: every store request is later in the
    trace. *)
Theorem embedder_is_asked_once_and_first {World : Type}
    (create_embedding : string → World → (exn + list float) * World)
    (svc : RAGService World) (q : string) (k : Z)
    (f : option (gmap string pyval)) (w : World) :
  let docs := search_documents create_embedding svc q k f w in
  let code := search_code_examples create_embedding svc q k f w in
  (embed_calls (events docs) = [q] ∧
   ∃ rest, events docs =
             EvSpan "rag_search_documents" (String.length q) k :: EvEmbed q :: rest ∧
           store_calls rest = store_calls (events docs)) ∧
  (embed_calls (events code) = [q] ∧
   ∃ rest, events code =
             EvSpan "rag_search_code" (String.length q) k :: EvEmbed q :: rest ∧
           store_calls rest = store_calls (events code)).
Proof.
  intros docs code. subst docs code.
  rewrite search_documents_protocol, search_code_examples_protocol.
  split.
  - split; [apply search_protocol_embed_calls|].
    rewrite search_protocol_events. by eexists.
  - split; [apply search_protocol_embed_calls|].
    rewrite search_protocol_events. by eexists.
Qed.

(** X2.  The span attribute "results_found" is set exactly when the call
    succeeds, once, to the number of records the call returns; a call that
    raises sets no attribute. *)
Theorem results_found_counts_the_records {World : Type}
    (create_embedding : string → World → (exn + list float) * World)
    (svc : RAGService World) (q : string) (k : Z)
    (f : option (gmap string pyval)) (w : World) :
  let docs := search_documents create_embedding svc q k f w in
  let code := search_code_examples create_embedding svc q k f w in
  span_attributes (events docs) =
    match result docs with
    | inl _ => []
    | inr records => [("results_found", length records)]
    end ∧
  span_attributes (events code) =
    match result code with
    | inl _ => []
    | inr records => [("results_found", length records)]
    end.
Proof.
  intros docs code. subst docs code.
  rewrite search_documents_protocol, search_code_examples_protocol.
  split; apply search_protocol_span_attributes.
Qed.

(** X3.  The keys of a returned record are "id", "score" and the keys of
    the hit's payload, nothing else; so every record that [vector_search]
    returns has an "id" and a "score" entry, also for a hit without
    payload. *)
Theorem records_have_id_score_and_payload_keys {World : Type}
    (self : BaseSearchStrategy World) (qe : list float) (k : Z)
    (f : option (gmap string pyval)) (table_rpc : string) (w : World)
    (p : models.ScoredPoint) :
  dom (flatten_hit p) =
    {["id"]} ∪ {["score"]} ∪ dom (default ∅ (models.payload p)) ∧
  ∀ records, result (vector_search self qe k f table_rpc w) = inr records →
    ∀ record, record ∈ records →
      is_Some (record !! "id") ∧ is_Some (record !! "score").
Proof.
  assert (Hdom : ∀ r, dom (flatten_hit r) =
            {["id"]} ∪ {["score"]} ∪ dom (default ∅ (models.payload r))).
  { intros r. unfold flatten_hit, dict_update.
    rewrite dom_union_L, !dom_insert_L, dom_empty_L.
    apply set_eq. intros x. rewrite !elem_of_union, elem_of_empty. tauto. }
  split; [apply Hdom|].
  intros records Hres record Hrec.
  destruct (vector_search_cases self qe k f table_rpc w)
    as [(_ & Hr & _ & _)|(_ & Hr & _ & _)]; rewrite Hr in Hres; [discriminate|].
  destruct (search (client self) _ w).1 as [e|hits]; [discriminate|].
  injection Hres as <-. apply list_elem_of_fmap in Hrec as (r & -> & _).
  rewrite <- !elem_of_dom, Hdom, !elem_of_union, !elem_of_singleton. tauto.
Qed.

(** X4.  For a hit whose payload has no entry named "id" or "score", the
    flat record carries the hit's own id and score, and taking those two
    entries out of the record gives back the payload. *)
Theorem payload_is_recovered_without_collision
    (p : models.ScoredPoint) :
  default ∅ (models.payload p) !! "id" = None →
  default ∅ (models.payload p) !! "score" = None →
  flatten_hit p !! "id" = Some (models.id_value (models.id p)) ∧
  flatten_hit p !! "score" = Some (PFloat (models.score p)) ∧
  delete "id" (delete "score" (flatten_hit p)) = default ∅ (models.payload p).
Proof.
  intros Hid Hscore. split; [|split].
  - rewrite flatten_hit_lookup, Hid. done.
  - rewrite flatten_hit_lookup, Hscore. done.
  - apply map_eq. intros key.
    destruct (decide (key = "id")) as [->|Hi].
    { by rewrite lookup_delete_eq, Hid. }
    rewrite lookup_delete_ne by done.
    destruct (decide (key = "score")) as [->|Hs].
    { by rewrite lookup_delete_eq, Hscore. }
    rewrite lookup_delete_ne by done.
    rewrite flatten_hit_lookup.
    destruct (default ∅ (models.payload p) !! key); [done|].
    by rewrite !decide_False.
Qed.

Lemma payload_is_recovered_without_collision_witness :
  delete "id" (delete "score"
    (flatten_hit (models.mkScoredPoint (models.IdInt 7) 0.875%float (Some Mock.go))))
    = Mock.go.
Proof.
  exact (proj2 (proj2
    (payload_is_recovered_without_collision
       (models.mkScoredPoint (models.IdInt 7) 0.875%float (Some Mock.go))
       eq_refl eq_refl))).
Defined.


(** * Further properties of the task service *)

Section TaskMoreFacts.

Import TaskService.

Variable isoformat_now : nat → string.
Variable next_rowid : list TaskRow → Z.

(** A valid status and a project id that SQLite can hold let
    [create_task] through to the insert. *)
Lemma create_task_valid (project_id : Z)
    (title description status assignee : string) (db : Database) :
  status ∈ VALID_STATUSES →
  sqlite3.fits_integer project_id = true →
  create_task isoformat_now next_rowid project_id title description status
    assignee db =
    let task_id := next_rowid (archon_tasks db) in
    let row := mkTaskRow task_id project_id title description status assignee
                 (isoformat_now (clock_reads db))
                 (isoformat_now (S (clock_reads db))) in
    (inr (true,
          {[ "task" := PDict (<["status" := PStr status]>
                               (<["title" := PStr title]>
                                  (<["id" := PInt task_id]> ∅))) ]}),
     mkDatabase (archon_tasks db ++ [row]) (S (connections_opened db))
       (S (S (clock_reads db)))).
Proof.
  intros Hin Hfits. unfold create_task.
  rewrite (not_in_valid_statuses_false status Hin). cbn [now].
  by rewrite Hfits.
Qed.

Lemma create_task_rows_kept (project_id : Z)
    (title description status assignee : string) (db : Database) :
  (status ∈ VALID_STATUSES → sqlite3.fits_integer project_id = false) →
  archon_tasks (create_task isoformat_now next_rowid project_id title
                  description status assignee db).2 = archon_tasks db.
Proof.
  intros Hcase. unfold create_task.
  destruct (not_in_valid_statuses status) eqn:Hs; [done|].
  cbn [now]. rewrite Hcase; [done|].
  unfold not_in_valid_statuses in Hs. apply negb_false_iff in Hs.
  by apply bool_decide_eq_true in Hs.
Qed.

Lemma list_tasks_fits (project_id : option Z) (db : Database) :
  TaskListing.params_fit project_id = true →
  TaskListing.list_tasks project_id db =
    let rows := TaskListing.select_tasks project_id (archon_tasks db) in
    (inr (true,
          <["total_count" := PInt (Z.of_nat (length rows))]>
            (<["tasks" := PList (PDict <$> (TaskListing.row_dict <$> rows))]> ∅)),
     mkDatabase (archon_tasks db) (S (connections_opened db)) (clock_reads db)).
Proof. intros Hfits. unfold TaskListing.list_tasks. by rewrite Hfits. Qed.

Lemma list_tasks_overflow (project_id : option Z) (db : Database) :
  TaskListing.params_fit project_id = false →
  TaskListing.list_tasks project_id db =
    (inl sqlite3.overflow_error,
     mkDatabase (archon_tasks db) (S (connections_opened db)) (clock_reads db)).
Proof. intros Hfits. unfold TaskListing.list_tasks. by rewrite Hfits. Qed.

Lemma select_tasks_app (project_id : option Z) (rows1 rows2 : list TaskRow) :
  TaskListing.select_tasks project_id (rows1 ++ rows2) =
    TaskListing.select_tasks project_id rows1 ++
    TaskListing.select_tasks project_id rows2.
Proof. destruct project_id; simpl; [apply List.filter_app|done]. Qed.

Lemma rowcount_app (task_id : Z) (rows1 rows2 : list TaskRow) :
  rowcount task_id (rows1 ++ rows2) =
    (rowcount task_id rows1 + rowcount task_id rows2)%nat.
Proof. unfold rowcount. by rewrite List.filter_app, length_app. Qed.

Lemma set_status_other (task_id : Z) (status stamp : string) (row : TaskRow) :
  id row ≠ task_id → set_status task_id status stamp row = row.
Proof. intros Hne. unfold set_status. by rewrite bool_decide_eq_false_2. Qed.

Lemma set_status_same (task_id : Z) (status stamp : string) (row : TaskRow) :
  id row = task_id →
  set_status task_id status stamp row =
    mkTaskRow (id row) (project_id row) (title row) (description row) status
      (assignee row) (created_at row) stamp.
Proof. intros Heq. unfold set_status. by rewrite bool_decide_eq_true_2. Qed.

Lemma set_status_missing (task_id : Z) (status stamp : string)
    (rows : list TaskRow) :
  rowcount task_id rows = 0%nat →
  set_status task_id status stamp <$> rows = rows.
Proof.
  rewrite rowcount_zero. intros Hnone.
  induction rows as [|row rows IH]; [done|]. simpl. f_equal.
  - apply set_status_other. intros Heq. apply Hnone. exists row.
    split; [left|done].
  - apply IH. intros (row' & Hin & Heq). apply Hnone. exists row'.
    split; [by right|done].
Qed.

End TaskMoreFacts.

Lemma valid_todo : "todo" ∈ TaskService.VALID_STATUSES.
Proof. apply (bool_decide_unpack _). vm_compute. exact I. Qed.

Lemma valid_done : "done" ∈ TaskService.VALID_STATUSES.
Proof. apply (bool_decide_unpack _). vm_compute. exact I. Qed.


(** X5.  A task created with a valid status, for a project id that SQLite
    can hold, shows up when the tasks of its project are listed: the
    listing has one task more than before, the old ones and a new one that
    carries the returned id, the title, the status and the project; the
    listings of every other project are what they were. *)
Theorem created_task_is_listed
    (isoformat_now : nat → string)
    (next_rowid : list TaskService.TaskRow → Z)
    (project_id : Z) (title description status assignee : string)
    (db : TaskService.Database) :
  status ∈ ["todo"; "doing"; "review"; "done"] →
  - 2 ^ 63 ≤ project_id < 2 ^ 63 →
  let out := TaskService.create_task isoformat_now next_rowid project_id title
               description status assignee db in
  let listed p d := (TaskListing.list_tasks p d).1 in
  (∃ task_id returned,
     out.1 = inr (true, {[ "task" := PDict returned ]}) ∧
     returned !! "id" = Some (PInt task_id) ∧
     ∃ before after n tasks tasks' new,
       listed (Some project_id) db = inr (true, before) ∧
       before !! "total_count" = Some (PInt n) ∧
       before !! "tasks" = Some (PList tasks) ∧
       listed (Some project_id) out.2 = inr (true, after) ∧
       after !! "total_count" = Some (PInt (n + 1)) ∧
       after !! "tasks" = Some (PList tasks') ∧
       tasks' ≡ₚ tasks ++ [PDict new] ∧
       new !! "id" = Some (PInt task_id) ∧
       new !! "title" = Some (PStr title) ∧
       new !! "status" = Some (PStr status) ∧
       new !! "project_id" = Some (PInt project_id)) ∧
  (∀ other, other ≠ project_id →
     listed (Some other) out.2 = listed (Some other) db).
Proof.
  intros Hvalid Hrange out listed. subst out listed.
  apply fits_integer_range in Hrange.
  rewrite (create_task_valid isoformat_now next_rowid _ _ _ _ _ _ Hvalid Hrange).
  cbv zeta. cbn [fst snd].
  set (row := TaskService.mkTaskRow _ _ _ _ _ _ _ _).
  assert (Hrow : TaskListing.select_tasks (Some project_id) [row] = [row]).
  { simpl. by rewrite bool_decide_eq_true_2. }
  split.
  - eexists _, _. split; [reflexivity|]. split; [reflexivity|].
    rewrite !(list_tasks_fits (Some project_id)) by exact Hrange.
    cbv zeta. cbn [fst snd TaskService.archon_tasks].
    rewrite select_tasks_app, Hrow.
    eexists _, _, _, _, _, (TaskListing.row_dict row).
    split; [reflexivity|]. split; [apply lookup_insert_eq|].
    split; [rewrite lookup_insert_ne by done; apply lookup_insert_eq|].
    split; [reflexivity|]. split.
    { rewrite lookup_insert_eq, length_app. simpl. do 2 f_equal. lia. }
    split; [rewrite lookup_insert_ne by done; apply lookup_insert_eq|].
    split; [by rewrite !fmap_app|].
    repeat split.
  - intros other Hother.
    assert (Hnone : TaskListing.select_tasks (Some other) [row] = []).
    { simpl. by rewrite bool_decide_eq_false_2. }
    destruct (TaskListing.params_fit (Some other)) eqn:Hfit.
    + rewrite !(list_tasks_fits (Some other)) by exact Hfit.
      cbv zeta. cbn [fst TaskService.archon_tasks].
      by rewrite select_tasks_app, Hnone, app_nil_r.
    + by rewrite !(list_tasks_overflow (Some other)) by exact Hfit.
Qed.

Lemma created_task_is_listed_witness :
  ("todo" ∈ ["todo"; "doing"; "review"; "done"]) ∧
  (- 2 ^ 63 ≤ 10 < 2 ^ 63) ∧
  (TaskListing.list_tasks (Some 11)
     (TaskService.create_task TaskService.sample_clock TaskService.sample_rowid
        10 "Plan" "" "todo" "User" TaskService.sample_db).2).1
    = (TaskListing.list_tasks (Some 11) TaskService.sample_db).1.
Proof.
  split; [exact valid_todo|]. split; [lia|].
  exact (proj2 (created_task_is_listed TaskService.sample_clock
                  TaskService.sample_rowid 10 "Plan" "" "todo" "User"
                  TaskService.sample_db valid_todo ltac:(lia))
           11 ltac:(discriminate)).
Defined.

(** X6.  A task that was just created can be updated: when the project id
    and the row id that the insert receives are integers SQLite can hold,
    [update_status] with the id that [create_task] returned and a valid
    status succeeds, it never answers that the task is not found. *)
Theorem created_task_can_be_updated
    (isoformat_now : nat → string)
    (next_rowid : list TaskService.TaskRow → Z)
    (project_id : Z) (title description status assignee new_status : string)
    (db : TaskService.Database) :
  status ∈ ["todo"; "doing"; "review"; "done"] →
  new_status ∈ ["todo"; "doing"; "review"; "done"] →
  - 2 ^ 63 ≤ project_id < 2 ^ 63 →
  - 2 ^ 63 ≤ next_rowid (TaskService.archon_tasks db) < 2 ^ 63 →
  let out := TaskService.create_task isoformat_now next_rowid project_id title
               description status assignee db in
  ∃ task_id returned,
    out.1 = inr (true, {[ "task" := PDict returned ]}) ∧
    returned !! "id" = Some (PInt task_id) ∧
    (TaskService.update_status isoformat_now task_id new_status out.2).1 =
      inr (true, {[ "task" := PDict (<["status" := PStr new_status]>
                                      (<["id" := PInt task_id]> ∅)) ]}).
Proof.
  intros Hvalid Hnew Hproject Hrowid out. subst out.
  apply fits_integer_range in Hproject. apply fits_integer_range in Hrowid.
  rewrite (create_task_valid isoformat_now next_rowid _ _ _ _ _ _ Hvalid Hproject).
  cbv zeta. cbn [fst snd].
  exists (next_rowid (TaskService.archon_tasks db)). eexists.
  split; [reflexivity|]. split; [reflexivity|].
  rewrite (update_status_valid isoformat_now _ _ _ Hnew Hrowid).
  cbv zeta. cbn [TaskService.archon_tasks].
  rewrite rowcount_app. unfold TaskService.rowcount at 2. simpl.
  rewrite bool_decide_eq_true_2 by done. simpl.
  by rewrite Nat.add_1_r.
Qed.

Lemma created_task_can_be_updated_witness :
  ("todo" ∈ ["todo"; "doing"; "review"; "done"]) ∧
  ("done" ∈ ["todo"; "doing"; "review"; "done"]) ∧
  (- 2 ^ 63 ≤ 10 < 2 ^ 63) ∧
  (- 2 ^ 63 ≤ TaskService.sample_rowid
               (TaskService.archon_tasks TaskService.sample_db) < 2 ^ 63) ∧
  ∃ task_id returned,
    (TaskService.create_task TaskService.sample_clock TaskService.sample_rowid
       10 "Plan" "" "todo" "User" TaskService.sample_db).1
      = inr (true, {[ "task" := PDict returned ]}) ∧
    returned !! "id" = Some (PInt task_id) ∧
    (TaskService.update_status TaskService.sample_clock task_id "done"
       (TaskService.create_task TaskService.sample_clock TaskService.sample_rowid
          10 "Plan" "" "todo" "User" TaskService.sample_db).2).1
      = inr (true, {[ "task" := PDict (<["status" := PStr "done"]>
                                        (<["id" := PInt task_id]> ∅)) ]}).
Proof.
  assert (Hrowid : - 2 ^ 63 ≤ TaskService.sample_rowid
                     (TaskService.archon_tasks TaskService.sample_db) < 2 ^ 63).
  { apply fits_integer_range. reflexivity. }
  split; [exact valid_todo|]. split; [exact valid_done|].
  split; [lia|]. split; [exact Hrowid|].
  exact (created_task_can_be_updated TaskService.sample_clock
           TaskService.sample_rowid 10 "Plan" "" "todo" "User" "done"
           TaskService.sample_db valid_todo valid_done ltac:(lia) Hrowid).
Defined.

Lemma update_status_rows
    (isoformat_now : nat → string) (task_id : Z) (status : string)
    (db : TaskService.Database) :
  status ∈ TaskService.VALID_STATUSES →
  sqlite3.fits_integer task_id = true →
  TaskService.archon_tasks
    (TaskService.update_status isoformat_now task_id status db).2 =
    TaskService.set_status task_id status
      (isoformat_now (TaskService.clock_reads db)) <$>
    TaskService.archon_tasks db.
Proof.
  intros Hvalid Hfits.
  rewrite (update_status_valid isoformat_now _ _ _ Hvalid Hfits). cbv zeta.
  by destruct (Nat.eqb _ 0).
Qed.

Lemma update_status_rows_kept
    (isoformat_now : nat → string) (task_id : Z) (status : string)
    (db : TaskService.Database) :
  (status ∈ TaskService.VALID_STATUSES →
   sqlite3.fits_integer task_id = false) →
  TaskService.archon_tasks
    (TaskService.update_status isoformat_now task_id status db).2 =
    TaskService.archon_tasks db.
Proof.
  intros Hcase.
  destruct (decide (status ∈ TaskService.VALID_STATUSES)) as [Hvalid|Hbad].
  - by rewrite (update_status_overflow isoformat_now _ _ _ Hvalid (Hcase Hvalid)).
  - unfold TaskService.update_status.
    by rewrite (not_in_valid_statuses_true status Hbad).
Qed.

(** X7.  [update_status] with a valid status touches nothing but the status
    and the update time of the rows with the given id, in a table whose ids
    are integers SQLite can hold: the table keeps its rows, row for row; a
    row with another id is left as it is; a row with the given id gets the
    new status and the time of the update and keeps its id, project, title,
    description, assignee and creation time. *)
Theorem update_status_changes_only_status
    (isoformat_now : nat → string) (task_id : Z) (status : string)
    (db : TaskService.Database) :
  status ∈ ["todo"; "doing"; "review"; "done"] →
  Forall (λ row, - 2 ^ 63 ≤ TaskService.id row < 2 ^ 63)
    (TaskService.archon_tasks db) →
  Forall2
    (λ old new,
       (TaskService.id old ≠ task_id → new = old) ∧
       (TaskService.id old = task_id →
          new = TaskService.mkTaskRow (TaskService.id old)
                  (TaskService.project_id old) (TaskService.title old)
                  (TaskService.description old) status
                  (TaskService.assignee old) (TaskService.created_at old)
                  (isoformat_now (TaskService.clock_reads db))))
    (TaskService.archon_tasks db)
    (TaskService.archon_tasks
       (TaskService.update_status isoformat_now task_id status db).2).
Proof.
  intros Hvalid Hids.
  destruct (sqlite3.fits_integer task_id) eqn:Hfits.
  - rewrite (update_status_rows isoformat_now _ _ _ Hvalid Hfits).
    apply Forall2_fmap_r, Forall_Forall2_diag, Forall_forall.
    intros row _. split.
    + apply set_status_other.
    + apply set_status_same.
  - rewrite (update_status_rows_kept isoformat_now task_id status db) by done.
    apply Forall_Forall2_diag. rewrite Forall_forall in Hids.
    apply Forall_forall. intros row Hrow. split; [done|].
    intros Heq. specialize (Hids row Hrow). rewrite Heq in Hids.
    apply fits_integer_range in Hids. congruence.
Qed.

Lemma sample_task_ids_fit :
  Forall (λ row, - 2 ^ 63 ≤ TaskService.id row < 2 ^ 63)
    (TaskService.archon_tasks TaskService.sample_db).
Proof.
  apply (Forall_impl (λ row, sqlite3.fits_integer (TaskService.id row) = true)).
  - repeat constructor.
  - intros row. apply fits_integer_range.
Qed.

Lemma update_status_changes_only_status_witness :
  ("done" ∈ ["todo"; "doing"; "review"; "done"]) ∧
  Forall (λ row, - 2 ^ 63 ≤ TaskService.id row < 2 ^ 63)
    (TaskService.archon_tasks TaskService.sample_db) ∧
  Forall2
    (λ old new,
       (TaskService.id old ≠ 2 → new = old) ∧
       (TaskService.id old = 2 →
          new = TaskService.mkTaskRow (TaskService.id old)
                  (TaskService.project_id old) (TaskService.title old)
                  (TaskService.description old) "done"
                  (TaskService.assignee old) (TaskService.created_at old)
                  (TaskService.sample_clock
                     (TaskService.clock_reads TaskService.sample_db))))
    (TaskService.archon_tasks TaskService.sample_db)
    (TaskService.archon_tasks
       (TaskService.update_status TaskService.sample_clock 2 "done"
          TaskService.sample_db).2).
Proof.
  split; [exact valid_done|]. split; [exact sample_task_ids_fit|].
  exact (update_status_changes_only_status TaskService.sample_clock 2 "done"
           TaskService.sample_db valid_done sample_task_ids_fit).
Defined.

(** X8.  The two writing operations keep the table within the four valid
    statuses: if every row has a valid status, then so has every row after
    [create_task] and after [update_status], whatever the arguments, a
    rejected status included. *)
Theorem statuses_stay_valid
    (isoformat_now : nat → string)
    (next_rowid : list TaskService.TaskRow → Z)
    (project_id task_id : Z) (title description status assignee : string)
    (db : TaskService.Database) :
  Forall (λ row, TaskService.status row ∈ ["todo"; "doing"; "review"; "done"])
    (TaskService.archon_tasks db) →
  Forall (λ row, TaskService.status row ∈ ["todo"; "doing"; "review"; "done"])
    (TaskService.archon_tasks
       (TaskService.create_task isoformat_now next_rowid project_id title
          description status assignee db).2) ∧
  Forall (λ row, TaskService.status row ∈ ["todo"; "doing"; "review"; "done"])
    (TaskService.archon_tasks
       (TaskService.update_status isoformat_now task_id status db).2).
Proof.
  intros Hall. split.
  - destruct (decide (status ∈ TaskService.VALID_STATUSES)) as [Hvalid|Hbad].
    + destruct (sqlite3.fits_integer project_id) eqn:Hfits.
      * rewrite (create_task_valid isoformat_now next_rowid _ _ _ _ _ _ Hvalid Hfits).
        cbv zeta. cbn [snd TaskService.archon_tasks].
        apply Forall_app. split; [done|]. by apply Forall_singleton.
      * by rewrite create_task_rows_kept.
    + by rewrite create_task_rows_kept.
  - destruct (decide (status ∈ TaskService.VALID_STATUSES)) as [Hvalid|Hbad].
    + destruct (sqlite3.fits_integer task_id) eqn:Hfits.
      * rewrite (update_status_rows isoformat_now _ _ _ Hvalid Hfits).
        apply Forall_fmap. rewrite Forall_forall in Hall.
        apply Forall_forall. intros row Hrow. simpl.
        unfold TaskService.set_status.
        destruct (bool_decide _); [done|by apply Hall].
      * by rewrite update_status_rows_kept.
    + by rewrite update_status_rows_kept.
Qed.

Lemma statuses_stay_valid_witness :
  Forall (λ row, TaskService.status row ∈ ["todo"; "doing"; "review"; "done"])
    TaskService.sample_rows ∧
  Forall (λ row, TaskService.status row ∈ ["todo"; "doing"; "review"; "done"])
    (TaskService.archon_tasks
       (TaskService.update_status TaskService.sample_clock 4 "done"
          TaskService.sample_db).2).
Proof.
  assert (Hall : Forall (λ row, TaskService.status row ∈
                                  ["todo"; "doing"; "review"; "done"])
                   TaskService.sample_rows).
  { apply (bool_decide_unpack _). vm_compute. exact I. }
  split; [exact Hall|].
  exact (proj2 (statuses_stay_valid TaskService.sample_clock
                  TaskService.sample_rowid 10 4 "t" "" "done" "User"
                  TaskService.sample_db Hall)).
Defined.

Lemma select_tasks_submseteq (project_id : option Z)
    (rows : list TaskService.TaskRow) :
  TaskListing.select_tasks project_id rows ⊆+ rows.
Proof.
  destruct project_id as [p|]; simpl; [|done].
  induction rows as [|row rows IH]; simpl; [done|].
  destruct (bool_decide _).
  - by apply submseteq_skip.
  - by apply submseteq_cons.
Qed.

Lemma elem_of_select_tasks (project_id : option Z)
    (rows : list TaskService.TaskRow) (row : TaskService.TaskRow) :
  row ∈ TaskListing.select_tasks project_id rows ↔
    row ∈ rows ∧ ∀ p, project_id = Some p → TaskService.project_id row = p.
Proof.
  destruct project_id as [p|]; simpl.
  - rewrite list_elem_of_In, filter_In, <- list_elem_of_In, bool_decide_eq_true.
    split.
    + intros [Hin Hp]. split; [done|]. by intros ? [= <-].
    + intros [Hin Hp]. split; [done|]. by apply Hp.
  - split; [|by intros [? _]]. intros Hin. split; [done|]. discriminate.
Qed.

(** X9.  [list_tasks] only reads.  Without a project id, or with one that
    SQLite can hold, it succeeds and leaves the rows as they are: with a
    project id it lists the rows of that project and no other, without one
    it lists every row; no row is listed more often than it is in the
    table, and "total_count" is the number of tasks listed. *)
Theorem list_tasks_lists_the_project
    (project_id : option Z) (db : TaskService.Database) :
  (∀ p, project_id = Some p → - 2 ^ 63 ≤ p < 2 ^ 63) →
  let out := TaskListing.list_tasks project_id db in
  TaskService.archon_tasks out.2 = TaskService.archon_tasks db ∧
  ∃ answer rows,
    out.1 = inr (true, answer) ∧
    answer !! "tasks" = Some (PList (PDict <$> (TaskListing.row_dict <$> rows))) ∧
    answer !! "total_count" = Some (PInt (Z.of_nat (length rows))) ∧
    rows ⊆+ TaskService.archon_tasks db ∧
    (∀ row, row ∈ rows ↔
       row ∈ TaskService.archon_tasks db ∧
       ∀ p, project_id = Some p → TaskService.project_id row = p) ∧
    (project_id = None → rows = TaskService.archon_tasks db).
Proof.
  intros Hrange out. subst out.
  assert (Hfits : TaskListing.params_fit project_id = true).
  { destruct project_id as [p|]; [|done]. simpl.
    by apply fits_integer_range, Hrange. }
  rewrite (list_tasks_fits project_id db Hfits). cbv zeta. cbn [fst snd].
  split; [done|].
  eexists _, (TaskListing.select_tasks project_id (TaskService.archon_tasks db)).
  split; [reflexivity|].
  split; [rewrite lookup_insert_ne by done; apply lookup_insert_eq|].
  split; [apply lookup_insert_eq|].
  split; [apply select_tasks_submseteq|]. split; [apply elem_of_select_tasks|].
  by intros ->.
Qed.

Lemma list_tasks_lists_the_project_witness :
  (∀ p, Some 10 = Some p → - 2 ^ 63 ≤ p < 2 ^ 63) ∧
  ∃ answer (rows : list TaskService.TaskRow),
    (TaskListing.list_tasks (Some 10) TaskService.sample_db).1
      = inr (true, answer) ∧
    answer !! "total_count" = Some (PInt (Z.of_nat (length rows))) ∧
    rows ⊆+ TaskService.archon_tasks TaskService.sample_db.
Proof.
  assert (Hrange : ∀ p, Some 10 = Some p → - 2 ^ 63 ≤ p < 2 ^ 63).
  { intros p [= <-]. lia. }
  split; [exact Hrange|].
  destruct (list_tasks_lists_the_project (Some 10) TaskService.sample_db Hrange)
    as (_ & answer & rows & Hout & _ & Hcount & Hsub & _).
  by exists answer, rows.
Defined.

(** * Properties of the project service *)

Section StripFacts.

Import Str.

Lemma lstrip_split (s : string) :
  ∃ l, s = l +:+ lstrip s ∧ all_space l = true.
Proof.
  induction s as [|c rest [l [Hl Hsp]]]; simpl.
  - by exists "".
  - destruct (isspace c) eqn:Hc.
    + exists (String c l). split.
      * rewrite Hl at 1. reflexivity.
      * cbn [all_space]. rewrite Hc, Hsp. reflexivity.
    + by exists "".
Qed.

Lemma lstrip_first (s : string) (c : Ascii.ascii) :
  first_char (lstrip s) = Some c → isspace c = false.
Proof.
  induction s as [|a rest IH]; simpl; [discriminate|].
  destruct (isspace a) eqn:Ha; [done|]. simpl. by intros [= <-].
Qed.

Lemma rstrip_split (s : string) :
  ∃ r, s = rstrip s +:+ r ∧ all_space r = true.
Proof.
  induction s as [|c rest [r [Hr Hsp]]]; simpl.
  - by exists "".
  - destruct (rstrip rest) as [|d kept] eqn:Hrest.
    + change ("" +:+ r) with r in Hr. subst rest. destruct (isspace c) eqn:Hc.
      * exists (String c r). split; [reflexivity|].
        cbn [all_space]. rewrite Hc, Hsp. reflexivity.
      * exists r. split; [reflexivity|done].
    + exists r. split; [|done]. rewrite Hr at 1. reflexivity.
Qed.

Lemma last_char_cons (c : Ascii.ascii) (s : string) :
  is_Some (last_char (String c s)).
Proof. simpl. destruct (last_char s); by eexists. Qed.

Lemma rstrip_last (s : string) (c : Ascii.ascii) :
  last_char (rstrip s) = Some c → isspace c = false.
Proof.
  revert c. induction s as [|a rest IH]; intros c; simpl; [discriminate|].
  destruct (rstrip rest) as [|d kept] eqn:Hrest.
  - destruct (isspace a) eqn:Ha; simpl; [discriminate|]. by intros [= <-].
  - change (last_char (String a (String d kept)))
      with (match last_char (String d kept) with
            | None => Some a
            | Some e => Some e
            end).
    destruct (last_char_cons d kept) as [e He]. rewrite He.
    intros [= <-]. by apply IH.
Qed.

Lemma rstrip_first (s : string) (c : Ascii.ascii) :
  first_char s = Some c → isspace c = false → first_char (rstrip s) = Some c.
Proof.
  destruct s as [|a rest]; simpl; [discriminate|].
  intros [= ->] Hc. destruct (rstrip rest); [by rewrite Hc|done].
Qed.

Lemma strip_first (s : string) (c : Ascii.ascii) :
  first_char (strip s) = Some c → isspace c = false.
Proof.
  unfold strip. destruct (lstrip s) as [|a t] eqn:Ht; [discriminate|].
  assert (Ha : isspace a = false) by (apply (lstrip_first s); by rewrite Ht).
  rewrite (rstrip_first (String a t) a eq_refl Ha). by intros [= <-].
Qed.

Lemma strip_split (s : string) :
  ∃ l r, s = l +:+ strip s +:+ r ∧ all_space l = true ∧ all_space r = true.
Proof.
  destruct (lstrip_split s) as (l & Hl & Hlsp).
  destruct (rstrip_split (lstrip s)) as (r & Hr & Hrsp).
  exists l, r. split; [|done]. unfold strip. by rewrite <- Hr.
Qed.

Lemma lstrip_all_space (s : string) : all_space s = true → lstrip s = "".
Proof.
  induction s as [|c rest IH]; simpl; [done|].
  intros [Hc Hrest]%andb_prop. rewrite Hc. by apply IH.
Qed.

End StripFacts.

Section ProjectFacts.

Import ProjectService.

Variable default_created_at default_updated_at : string.
Variable next_rowid : list Row → Z.

Lemma create_project_empty (github_repo : option string) (db : Database) :
  create_project default_created_at default_updated_at next_rowid "" github_repo db
    = ((false, error "Project title is required"), db).
Proof. reflexivity. Qed.

(** A title with at least one character reaches the insert. *)
Lemma create_project_nonempty (title : string) (github_repo : option string)
    (db : Database) :
  title ≠ "" →
  create_project default_created_at default_updated_at next_rowid title
    github_repo db =
    let rowid := next_rowid (archon_projects db) in
    let row := mkRow rowid (Str.strip title) github_repo default_created_at
                 default_updated_at in
    ((true, {[ "project" := PDict (row_dict row) ]}),
     mkDatabase (archon_projects db ++ [row]) (S (connections_opened db))).
Proof.
  intros Hne. unfold create_project.
  destruct (String.eqb title "") eqn:Heq.
  { apply String.eqb_eq in Heq. contradiction. }
  reflexivity.
Qed.

Lemma has_id_filter_none (project_id : Z) (rows : list Row) :
  List.filter (has_id project_id) rows = [] ↔
    ¬ ∃ row, row ∈ rows ∧ col_id row = project_id.
Proof.
  induction rows as [|row rows IH]; simpl.
  - split; [|done]. intros _ (row & Hin & _). by apply not_elem_of_nil in Hin.
  - unfold has_id at 1. destruct (bool_decide (col_id row = project_id)) eqn:Hid.
    + apply bool_decide_eq_true in Hid. split; [discriminate|].
      intros Hnone. exfalso. apply Hnone. exists row. split; [left|done].
    + apply bool_decide_eq_false in Hid. rewrite IH. split.
      * intros Hnone (row' & Hin & Heq). apply elem_of_cons in Hin as [->|Hin].
        -- contradiction.
        -- apply Hnone. by exists row'.
      * intros Hnone (row' & Hin & Heq). apply Hnone. exists row'.
        split; [by right|done].
Qed.

Lemma fetchone_Some (project_id : Z) (rows : list Row) (row : Row) :
  fetchone project_id rows = Some row → row ∈ rows ∧ col_id row = project_id.
Proof.
  unfold fetchone. intros Hhead. apply head_Some_elem_of in Hhead.
  apply list_elem_of_In, filter_In in Hhead as [Hin Hid].
  split; [by apply list_elem_of_In|]. by apply bool_decide_eq_true in Hid.
Qed.

Lemma fetchone_None (project_id : Z) (rows : list Row) :
  fetchone project_id rows = None ↔
    ¬ ∃ row, row ∈ rows ∧ col_id row = project_id.
Proof.
  unfold fetchone. rewrite <- has_id_filter_none.
  by destruct (List.filter (has_id project_id) rows).
Qed.

Lemma filter_others_elem_of (project_id : Z) (rows : list Row) (row : Row) :
  row ∈ List.filter (λ r, negb (has_id project_id r)) rows ↔
    row ∈ rows ∧ col_id row ≠ project_id.
Proof.
  rewrite list_elem_of_In, filter_In, <- list_elem_of_In.
  unfold has_id. rewrite negb_true_iff, bool_decide_eq_false. done.
Qed.

Lemma filter_others_submseteq (project_id : Z) (rows : list Row) :
  List.filter (λ r, negb (has_id project_id r)) rows ⊆+ rows.
Proof.
  induction rows as [|row rows IH]; simpl; [done|].
  destruct (negb _).
  - by apply submseteq_skip.
  - by apply submseteq_cons.
Qed.

Lemma filter_others_all (project_id : Z) (rows : list Row) :
  (¬ ∃ row, row ∈ rows ∧ col_id row = project_id) →
  List.filter (λ r, negb (has_id project_id r)) rows = rows.
Proof.
  intros Hnone. induction rows as [|row rows IH]; simpl; [done|].
  unfold has_id at 1. rewrite bool_decide_eq_false_2.
  - simpl. f_equal. apply IH. intros (row' & Hin & Heq). apply Hnone.
    exists row'. split; [by right|done].
  - intros Heq. apply Hnone. exists row. split; [left|done].
Qed.

Lemma delete_project_rows (project_id : Z) (db : Database) :
  sqlite3.fits_integer project_id = true →
  archon_projects (delete_project project_id db).2 =
    List.filter (λ r, negb (has_id project_id r)) (archon_projects db).
Proof. intros Hfits. unfold delete_project. rewrite Hfits. by destruct (negb _). Qed.

Lemma delete_project_found (project_id : Z) (db : Database) :
  sqlite3.fits_integer project_id = true →
  (∃ row, row ∈ archon_projects db ∧ col_id row = project_id) →
  (delete_project project_id db).1 =
    inr (true, {[ "deleted" := PInt project_id ]}).
Proof.
  intros Hfits Hex. unfold delete_project. rewrite Hfits.
  cbn [db_context_enter archon_projects].
  destruct (List.filter (has_id project_id) (archon_projects db)) as [|r l] eqn:Hf.
  - apply has_id_filter_none in Hf. contradiction.
  - reflexivity.
Qed.

Lemma delete_project_missing (project_id : Z) (db : Database) :
  sqlite3.fits_integer project_id = true →
  (¬ ∃ row, row ∈ archon_projects db ∧ col_id row = project_id) →
  (delete_project project_id db).1 =
    inr (false, error ("Project with ID " +:+ pretty project_id +:+ " not found")).
Proof.
  intros Hfits Hnone. unfold delete_project. rewrite Hfits.
  cbn [db_context_enter archon_projects].
  apply has_id_filter_none in Hnone. by rewrite Hnone.
Qed.

Lemma get_project_flag (project_id : Z) (db : Database) :
  sqlite3.fits_integer project_id = true →
  (get_project project_id db).1 =
    match fetchone project_id (archon_projects db) with
    | None =>
        inr (false,
             error ("Project with ID " +:+ pretty project_id +:+ " not found"))
    | Some r => inr (true, {[ "project" := PDict (row_dict r) ]})
    end.
Proof.
  intros Hfits. unfold get_project. rewrite Hfits.
  cbn [db_context_enter archon_projects].
  by destruct (fetchone project_id (archon_projects db)).
Qed.

Lemma get_project_rows (project_id : Z) (db : Database) :
  archon_projects (get_project project_id db).2 = archon_projects db.
Proof.
  unfold get_project. destruct (sqlite3.fits_integer project_id); [|done].
  by destruct (fetchone _ _).
Qed.

(** A row with the id is there or it is not. *)
Lemma has_id_cases (project_id : Z) (rows : list Row) :
  (∃ row, row ∈ rows ∧ col_id row = project_id) ∨
  ¬ (∃ row, row ∈ rows ∧ col_id row = project_id).
Proof.
  destruct (List.filter (has_id project_id) rows) as [|r l] eqn:Hf.
  - right. by apply has_id_filter_none.
  - left. exists r.
    assert (Hr : In r (List.filter (has_id project_id) rows))
      by (rewrite Hf; by left).
    apply filter_In in Hr as [Hin Hid]. split; [by apply list_elem_of_In|].
    by apply bool_decide_eq_true in Hid.
Qed.

End ProjectFacts.

Global Instance newer_first_total : Total ProjectService.newer_first.
Proof.
  intros r1 r2. unfold ProjectService.newer_first.
  destruct (String.leb_total (ProjectService.col_created_at r2)
              (ProjectService.col_created_at r1)); auto.
Qed.

(** X10.  [create_project] refuses the empty title and no other: it
    returns [False] exactly for the empty string, and then with the message
    "Project title is required", the rows untouched and no connection
    opened. *)
Theorem only_the_empty_title_is_refused
    (default_created_at default_updated_at : string)
    (next_rowid : list ProjectService.Row → Z)
    (title : string) (github_repo : option string)
    (db : ProjectService.Database) :
  let out := ProjectService.create_project default_created_at
               default_updated_at next_rowid title github_repo db in
  (out.1.1 = false ↔ title = "") ∧
  (out.1.1 = false →
     out = ((false, {[ "error" := PStr "Project title is required" ]}), db)).
Proof.
  intros out. subst out.
  destruct (decide (title = "")) as [->|Hne].
  - rewrite create_project_empty. done.
  - rewrite (create_project_nonempty _ _ _ _ _ _ Hne). cbv zeta. cbn [fst snd].
    split; [split|]; intros; (discriminate || contradiction).
Qed.

(** X11.  The title that [create_project] stores and returns is the given
    title without the whitespace at its two ends: the inside is kept, what
    was cut off is whitespace only, and the stored title neither starts nor
    ends with a whitespace character. *)
Theorem stored_title_is_stripped
    (default_created_at default_updated_at : string)
    (next_rowid : list ProjectService.Row → Z)
    (title : string) (github_repo : option string)
    (db : ProjectService.Database) :
  title ≠ "" →
  let out := ProjectService.create_project default_created_at
               default_updated_at next_rowid title github_repo db in
  ∃ row returned left_cut right_cut,
    ProjectService.archon_projects out.2 =
      ProjectService.archon_projects db ++ [row] ∧
    out.1 = (true, {[ "project" := PDict returned ]}) ∧
    returned !! "title" = Some (PStr (ProjectService.col_title row)) ∧
    title = left_cut +:+ ProjectService.col_title row +:+ right_cut ∧
    Str.all_space left_cut = true ∧
    Str.all_space right_cut = true ∧
    (∀ c, Str.first_char (ProjectService.col_title row) = Some c →
          Str.isspace c = false) ∧
    (∀ c, Str.last_char (ProjectService.col_title row) = Some c →
          Str.isspace c = false).
Proof.
  intros Hne out. subst out.
  rewrite (create_project_nonempty _ _ _ _ _ _ Hne). cbv zeta. cbn [fst snd].
  destruct (strip_split title) as (l & r & Hsplit & Hl & Hr).
  eexists _, _, l, r.
  split; [reflexivity|]. split; [reflexivity|]. split; [reflexivity|].
  cbn [ProjectService.col_title]. split; [exact Hsplit|].
  split; [exact Hl|]. split; [exact Hr|]. split.
  - apply strip_first.
  - intros c. apply rstrip_last.
Qed.

Lemma stored_title_is_stripped_witness :
  "  Archon docs " ≠ "" ∧
  ∃ row returned left_cut right_cut,
    ProjectService.archon_projects
      (ProjectService.create_project "t0" "t1" ProjectService.sample_rowid
         "  Archon docs " None ProjectService.sample_db).2 =
      ProjectService.archon_projects ProjectService.sample_db ++ [row] ∧
    (ProjectService.create_project "t0" "t1" ProjectService.sample_rowid
       "  Archon docs " None ProjectService.sample_db).1
      = (true, {[ "project" := PDict returned ]}) ∧
    returned !! "title" = Some (PStr (ProjectService.col_title row)) ∧
    "  Archon docs " = left_cut +:+ ProjectService.col_title row +:+ right_cut ∧
    Str.all_space left_cut = true ∧
    Str.all_space right_cut = true ∧
    (∀ c, Str.first_char (ProjectService.col_title row) = Some c →
          Str.isspace c = false) ∧
    (∀ c, Str.last_char (ProjectService.col_title row) = Some c →
          Str.isspace c = false).
Proof.
  split; [discriminate|].
  exact (stored_title_is_stripped "t0" "t1" ProjectService.sample_rowid
           "  Archon docs " None ProjectService.sample_db ltac:(discriminate)).
Defined.

(** X12.  A title that is not empty but consists of whitespace only passes
    the check of [create_project]: the call succeeds and the project is
    stored with the empty title. *)
Theorem whitespace_title_is_stored_empty
    (default_created_at default_updated_at : string)
    (next_rowid : list ProjectService.Row → Z)
    (title : string) (github_repo : option string)
    (db : ProjectService.Database) :
  title ≠ "" →
  Str.all_space title = true →
  let out := ProjectService.create_project default_created_at
               default_updated_at next_rowid title github_repo db in
  out.1.1 = true ∧
  ∃ row,
    ProjectService.archon_projects out.2 =
      ProjectService.archon_projects db ++ [row] ∧
    ProjectService.col_title row = "".
Proof.
  intros Hne Hsp out. subst out.
  rewrite (create_project_nonempty _ _ _ _ _ _ Hne). cbv zeta. cbn [fst snd].
  split; [done|]. eexists. split; [reflexivity|].
  cbn [ProjectService.col_title]. unfold Str.strip.
  by rewrite (lstrip_all_space title Hsp).
Qed.

Lemma whitespace_title_is_stored_empty_witness :
  "   " ≠ "" ∧ Str.all_space "   " = true ∧
  ProjectService.col_title <$>
    ProjectService.archon_projects
      (ProjectService.create_project "t0" "t1" ProjectService.sample_rowid
         "   " None ProjectService.sample_db).2
    = ["Archon"; "Docs"; "Search"; ""].
Proof.
  split; [discriminate|]. split; [reflexivity|].
  destruct (whitespace_title_is_stored_empty "t0" "t1"
              ProjectService.sample_rowid "   " None ProjectService.sample_db
              ltac:(discriminate) eq_refl) as (_ & row & Hrows & Htitle).
  rewrite Hrows, fmap_app. simpl. by rewrite Htitle.
Defined.

(** X13.  Create, then fetch: when the row id that the insert receives is
    not yet in the table and is an integer SQLite can hold, as its row ids
    are, [get_project] with the id that [create_project] returned succeeds
    and returns the very project that [create_project] returned. *)
Theorem created_project_can_be_fetched
    (default_created_at default_updated_at : string)
    (next_rowid : list ProjectService.Row → Z)
    (title : string) (github_repo : option string)
    (db : ProjectService.Database) :
  title ≠ "" →
  (∀ row, row ∈ ProjectService.archon_projects db →
          ProjectService.col_id row ≠
            next_rowid (ProjectService.archon_projects db)) →
  - 2 ^ 63 ≤ next_rowid (ProjectService.archon_projects db) < 2 ^ 63 →
  let out := ProjectService.create_project default_created_at
               default_updated_at next_rowid title github_repo db in
  ∃ project_id returned,
    out.1 = (true, {[ "project" := PDict returned ]}) ∧
    returned !! "id" = Some (PInt project_id) ∧
    (ProjectService.get_project project_id out.2).1 = inr out.1.
Proof.
  intros Hne Hfresh Hrange out. subst out.
  apply fits_integer_range in Hrange.
  rewrite (create_project_nonempty _ _ _ _ _ _ Hne). cbv zeta. cbn [fst snd].
  exists (next_rowid (ProjectService.archon_projects db)). eexists.
  split; [reflexivity|]. split; [reflexivity|].
  rewrite (get_project_flag _ _ Hrange). cbn [ProjectService.archon_projects].
  unfold ProjectService.fetchone. rewrite List.filter_app.
  assert (Hnone : List.filter
                    (ProjectService.has_id
                       (next_rowid (ProjectService.archon_projects db)))
                    (ProjectService.archon_projects db) = []).
  { apply has_id_filter_none. intros (row & Hin & Heq). by apply (Hfresh row). }
  rewrite Hnone. simpl. unfold ProjectService.has_id. simpl.
  by rewrite bool_decide_eq_true_2.
Qed.

Lemma sample_rowid_is_fresh :
  ∀ row, row ∈ ProjectService.archon_projects ProjectService.sample_db →
         ProjectService.col_id row ≠
           ProjectService.sample_rowid
             (ProjectService.archon_projects ProjectService.sample_db).
Proof.
  apply Forall_forall. apply (bool_decide_unpack _). vm_compute. exact I.
Qed.

Lemma sample_rowid_fits :
  - 2 ^ 63 ≤ ProjectService.sample_rowid
               (ProjectService.archon_projects ProjectService.sample_db) < 2 ^ 63.
Proof. apply fits_integer_range. reflexivity. Qed.

Lemma created_project_can_be_fetched_witness :
  "Archon docs" ≠ "" ∧
  (- 2 ^ 63 ≤ ProjectService.sample_rowid
               (ProjectService.archon_projects ProjectService.sample_db) < 2 ^ 63) ∧
  ∃ project_id returned,
    (ProjectService.create_project "t0" "t1" ProjectService.sample_rowid
       "Archon docs" None ProjectService.sample_db).1
      = (true, {[ "project" := PDict returned ]}) ∧
    returned !! "id" = Some (PInt project_id) ∧
    (ProjectService.get_project project_id
       (ProjectService.create_project "t0" "t1" ProjectService.sample_rowid
          "Archon docs" None ProjectService.sample_db).2).1
      = inr (ProjectService.create_project "t0" "t1" ProjectService.sample_rowid
               "Archon docs" None ProjectService.sample_db).1.
Proof.
  split; [discriminate|]. split; [exact sample_rowid_fits|].
  exact (created_project_can_be_fetched "t0" "t1" ProjectService.sample_rowid
           "Archon docs" None ProjectService.sample_db ltac:(discriminate)
           sample_rowid_is_fresh sample_rowid_fits).
Defined.

(** X14.  [get_project] only reads, and for an id that SQLite can hold it
    succeeds exactly when the table has a row with the given id: then it
    returns such a row, as a dict of its five columns; otherwise it returns
    [False] with the message "Project with ID <id> not found". *)
Theorem get_project_finds_the_existing_ids
    (project_id : Z) (db : ProjectService.Database) :
  - 2 ^ 63 ≤ project_id < 2 ^ 63 →
  let out := ProjectService.get_project project_id db in
  let exists_row :=
    ∃ row, row ∈ ProjectService.archon_projects db ∧
           ProjectService.col_id row = project_id in
  ProjectService.archon_projects out.2 = ProjectService.archon_projects db ∧
  ∃ flag answer,
    out.1 = inr (flag, answer) ∧
    (flag = true ↔ exists_row) ∧
    (flag = true →
       ∃ row, row ∈ ProjectService.archon_projects db ∧
              ProjectService.col_id row = project_id ∧
              answer = {[ "project" := PDict (ProjectService.row_dict row) ]}) ∧
    (flag = false →
       answer = {[ "error" := PStr ("Project with ID " +:+ pretty project_id
                                     +:+ " not found") ]}).
Proof.
  intros Hrange out exists_row. subst out exists_row.
  apply fits_integer_range in Hrange.
  split; [apply get_project_rows|].
  rewrite (get_project_flag _ _ Hrange).
  destruct (ProjectService.fetchone project_id (ProjectService.archon_projects db))
    as [row|] eqn:Hrow.
  - apply fetchone_Some in Hrow as [Hin Hid].
    eexists _, _. split; [reflexivity|]. split; [|split].
    + split; [|done]. intros _. by exists row.
    + intros _. by exists row.
    + discriminate.
  - apply fetchone_None in Hrow.
    eexists _, _. split; [reflexivity|]. split; [|split].
    + split; [discriminate|]. intros Hex. contradiction.
    + discriminate.
    + done.
Qed.

Lemma get_project_finds_the_existing_ids_witness :
  (- 2 ^ 63 ≤ 5 < 2 ^ 63) ∧
  ∃ flag answer,
    (ProjectService.get_project 5 ProjectService.sample_db).1 = inr (flag, answer) ∧
    (flag = true ↔
       ∃ row, row ∈ ProjectService.archon_projects ProjectService.sample_db ∧
              ProjectService.col_id row = 5).
Proof.
  split; [lia|].
  destruct (get_project_finds_the_existing_ids 5 ProjectService.sample_db
              ltac:(lia)) as (_ & flag & answer & Hout & Hiff & _).
  by exists flag, answer.
Defined.

(** X15.  For an id that SQLite can hold, [delete_project] succeeds exactly
    when the table has a row with the given id.  Afterwards no row has that
    id, and the rows with other ids are all still there, none of them
    changed or doubled; when it fails the table is what it was. *)
Theorem delete_project_removes_the_id
    (project_id : Z) (db : ProjectService.Database) :
  - 2 ^ 63 ≤ project_id < 2 ^ 63 →
  let out := ProjectService.delete_project project_id db in
  let before := ProjectService.archon_projects db in
  let after := ProjectService.archon_projects out.2 in
  let exists_row := ∃ row, row ∈ before ∧ ProjectService.col_id row = project_id in
  (∀ row, row ∈ after ↔ row ∈ before ∧ ProjectService.col_id row ≠ project_id) ∧
  after ⊆+ before ∧
  ∃ flag answer,
    out.1 = inr (flag, answer) ∧
    (flag = true ↔ exists_row) ∧
    (flag = true → answer = {[ "deleted" := PInt project_id ]}) ∧
    (flag = false →
       after = before ∧
       answer = {[ "error" := PStr ("Project with ID " +:+ pretty project_id
                                     +:+ " not found") ]}).
Proof.
  intros Hrange out before after exists_row. subst out before after exists_row.
  apply fits_integer_range in Hrange.
  rewrite (delete_project_rows _ _ Hrange).
  split; [intros row; apply filter_others_elem_of|].
  split; [apply filter_others_submseteq|].
  destruct (has_id_cases project_id (ProjectService.archon_projects db))
    as [Hex|Hnone].
  - rewrite (delete_project_found _ _ Hrange Hex).
    eexists _, _. split; [reflexivity|]. split; [done|]. split; [done|].
    discriminate.
  - rewrite (delete_project_missing _ _ Hrange Hnone).
    eexists _, _. split; [reflexivity|]. split; [|split].
    + split; [discriminate|]. intros Hex. contradiction.
    + discriminate.
    + intros _. split; [by apply filter_others_all|done].
Qed.

Lemma delete_project_removes_the_id_witness :
  (- 2 ^ 63 ≤ 2 < 2 ^ 63) ∧
  ProjectService.archon_projects
    (ProjectService.delete_project 2 ProjectService.sample_db).2
    ⊆+ ProjectService.archon_projects ProjectService.sample_db ∧
  ∀ row,
    row ∈ ProjectService.archon_projects
            (ProjectService.delete_project 2 ProjectService.sample_db).2 ↔
    row ∈ ProjectService.archon_projects ProjectService.sample_db ∧
    ProjectService.col_id row ≠ 2.
Proof.
  split; [lia|].
  destruct (delete_project_removes_the_id 2 ProjectService.sample_db ltac:(lia))
    as (Hrows & Hsub & _).
  split; [exact Hsub|exact Hrows].
Defined.

(** X16.  Delete, then fetch or delete again: after [delete_project] for an
    id that SQLite can hold, whether it found a row or not, [get_project]
    for that id answers "not found", and so does a second
    [delete_project]. *)
Theorem deleted_project_is_gone
    (project_id : Z) (db : ProjectService.Database) :
  - 2 ^ 63 ≤ project_id < 2 ^ 63 →
  let db' := (ProjectService.delete_project project_id db).2 in
  let not_found : exn + bool * gmap string pyval :=
    inr (false, {[ "error" := PStr ("Project with ID " +:+ pretty project_id
                                     +:+ " not found") ]}) in
  (ProjectService.get_project project_id db').1 = not_found ∧
  (ProjectService.delete_project project_id db').1 = not_found.
Proof.
  intros Hrange db' not_found. subst db' not_found.
  apply fits_integer_range in Hrange.
  assert (Hgone : ¬ ∃ row,
            row ∈ ProjectService.archon_projects
                    (ProjectService.delete_project project_id db).2 ∧
            ProjectService.col_id row = project_id).
  { intros (row & Hin & Heq). rewrite (delete_project_rows _ _ Hrange) in Hin.
    apply filter_others_elem_of in Hin as [_ Hne]. contradiction. }
  split.
  - rewrite (get_project_flag _ _ Hrange).
    by rewrite (proj2 (fetchone_None _ _) Hgone).
  - by apply delete_project_missing.
Qed.

Lemma deleted_project_is_gone_witness :
  (- 2 ^ 63 ≤ 2 < 2 ^ 63) ∧
  (ProjectService.get_project 2
     (ProjectService.delete_project 2 ProjectService.sample_db).2).1
    = inr (false, {[ "error" := PStr "Project with ID 2 not found" ]}).
Proof.
  split; [lia|].
  exact (proj1 (deleted_project_is_gone 2 ProjectService.sample_db ltac:(lia))).
Defined.

(** X17.  [list_projects] only reads and lists every project once: the
    listed rows are the rows of the table in another order, each next one
    created no later than the one before it (newest first, by the text of
    [created_at]), and "total_count" is the number of rows. *)
Theorem list_projects_newest_first (db : ProjectService.Database) :
  let out := ProjectService.list_projects db in
  out.1.1 = true ∧
  ProjectService.archon_projects out.2 = ProjectService.archon_projects db ∧
  ∃ rows,
    out.1.2 !! "projects" =
      Some (PList (PDict <$> (ProjectService.row_dict <$> rows))) ∧
    out.1.2 !! "total_count" =
      Some (PInt (Z.of_nat (length (ProjectService.archon_projects db)))) ∧
    rows ≡ₚ ProjectService.archon_projects db ∧
    Sorted (λ r1 r2,
              String.leb (ProjectService.col_created_at r2)
                (ProjectService.col_created_at r1) = true) rows.
Proof.
  intros out. subst out. split; [done|]. split; [done|].
  exists (ProjectService.order_by_created_at_desc (ProjectService.archon_projects db)).
  unfold ProjectService.list_projects. cbn [fst snd].
  cbn [ProjectService.db_context_enter ProjectService.archon_projects].
  split; [|split; [|split]].
  - rewrite lookup_insert_ne by done. apply lookup_insert_eq.
  - rewrite lookup_insert_eq. do 3 f_equal.
    unfold ProjectService.order_by_created_at_desc.
    apply Permutation_length, merge_sort_Permutation.
  - apply merge_sort_Permutation.
  - apply (Sorted_merge_sort ProjectService.newer_first).
Qed.

(** X18.  The time of creation does not come from the call: two projects
    created one after the other are stored with the same [created_at] and
    the same [updated_at], the defaults of the dataclass, whenever the calls
    are made. *)
Theorem projects_share_the_default_timestamps
    (default_created_at default_updated_at : string)
    (next_rowid : list ProjectService.Row → Z)
    (title1 title2 : string) (repo1 repo2 : option string)
    (db : ProjectService.Database) :
  title1 ≠ "" →
  title2 ≠ "" →
  let db1 := (ProjectService.create_project default_created_at
                default_updated_at next_rowid title1 repo1 db).2 in
  let db2 := (ProjectService.create_project default_created_at
                default_updated_at next_rowid title2 repo2 db1).2 in
  ∃ row1 row2,
    ProjectService.archon_projects db2 =
      ProjectService.archon_projects db ++ [row1; row2] ∧
    ProjectService.col_created_at row1 = default_created_at ∧
    ProjectService.col_created_at row2 = default_created_at ∧
    ProjectService.col_updated_at row1 = default_updated_at ∧
    ProjectService.col_updated_at row2 = default_updated_at.
Proof.
  intros Hne1 Hne2 db1 db2. subst db2 db1.
  rewrite (create_project_nonempty _ _ _ title1 _ _ Hne1). cbv zeta. cbn [snd].
  rewrite (create_project_nonempty _ _ _ title2 _ _ Hne2). cbv zeta. cbn [snd].
  cbn [ProjectService.archon_projects].
  eexists _, _. split; [by rewrite <- app_assoc|]. done.
Qed.

Lemma projects_share_the_default_timestamps_witness :
  "A" ≠ "" ∧ "B" ≠ "" ∧
  ProjectService.col_created_at <$>
    ProjectService.archon_projects
      (ProjectService.create_project "t0" "t1" ProjectService.sample_rowid "B" None
         (ProjectService.create_project "t0" "t1" ProjectService.sample_rowid
            "A" None ProjectService.sample_db).2).2
    = (ProjectService.col_created_at <$> ProjectService.sample_rows) ++ ["t0"; "t0"].
Proof.
  split; [discriminate|]. split; [discriminate|].
  destruct (projects_share_the_default_timestamps "t0" "t1"
              ProjectService.sample_rowid "A" "B" None None
              ProjectService.sample_db ltac:(discriminate) ltac:(discriminate))
    as (row1 & row2 & Hrows & Hc1 & Hc2 & _).
  rewrite Hrows, fmap_app. simpl. by rewrite Hc1, Hc2.
Defined.
